(** * Call-analysis pipeline of sales-coach: speech metrics, emotion
    aggregation, report generation and the analysis trigger.

    The development embeds
      - backend/app/services/speech_metrics.py
      - backend/app/services/emotion_analysis.py
      - backend/app/services/coaching_report.py
      - backend/app/services/sales_personas.py
      - backend/app/api/routes/calls.py (the routes of one session and
        the list of personas)
    and proves the properties stated for them, and further properties
    of the same code.

    Modelling conventions.
      - A Python [str] is a [string]; every character is a code point
        below 256, with the character classes Python assigns to those
        code points.
      - A Python number is an exact rational ([Q]): durations, scores and
        rates are read as the real numbers they stand for, without the
        rounding error of binary floating point.  [round(x, n)] is
        rounding to the nearest multiple of 10^-n, ties to the even
        multiple.  Results of [round] are kept in lowest terms, so equal
        numbers are equal terms.
      - A transcript, a message, a reading and the telemetry are the
        mappings of the data model, as records; a key the mapping lacks
        is [None].
      - A dict whose order is irrelevant is a [gmap]; a dict that is
        iterated in insertion order is an association list.
      - The session store is reliable: its operations do not raise.  The
        model service and the JSON decoder are arbitrary. *)

From Stdlib Require Import ZArith QArith Qround Qabs Lia Lqa Bool Ascii String List.
From Stdlib Require Import Sorting.Sorted Sorting.Permutation.
From stdpp Require Import base option list gmap strings fin_maps.

Local Open Scope string_scope.

(* ===================================================================== *)
(** ** Python text primitives *)
(* ===================================================================== *)

Module PyStr.

(** [str.isspace] on one character: the characters [str.split()] and
    [str.strip()] treat as whitespace. *)
Definition isspace (c : ascii) : bool :=
  let n := N_of_ascii c in
  ((9 <=? n) && (n <=? 13) || (28 <=? n) && (n <=? 32)
   || (n =? 133) || (n =? 160))%N.

(** The class [\w] of the [re] module on [str] patterns. *)
Definition is_word (c : ascii) : bool :=
  let n := N_of_ascii c in
  ((48 <=? n) && (n <=? 57) || (65 <=? n) && (n <=? 90) || (n =? 95)
   || (97 <=? n) && (n <=? 122)
   || (n =? 170) || (178 <=? n) && (n <=? 179) || (n =? 181)
   || (185 <=? n) && (n <=? 186) || (188 <=? n) && (n <=? 190)
   || (192 <=? n) && (n <=? 214) || (216 <=? n) && (n <=? 246)
   || (248 <=? n) && (n <=? 255))%N.

(** [str.lower] on one character. *)
Definition lower_char (c : ascii) : ascii :=
  let n := N_of_ascii c in
  if ((65 <=? n) && (n <=? 90) || (192 <=? n) && (n <=? 214)
      || (216 <=? n) && (n <=? 222))%N
  then ascii_of_N (n + 32) else c.

Fixpoint lower (s : string) : string :=
  match s with
  | EmptyString => EmptyString
  | String c s' => String (lower_char c) (lower s')
  end.

(** [len(s.split())]: the number of maximal runs of non-whitespace
    characters.  [in_word] tells whether the previous character belonged
    to a token. *)
Fixpoint count_tokens (in_word : bool) (s : string) : nat :=
  match s with
  | EmptyString => 0
  | String c s' =>
      if isspace c then count_tokens false s'
      else if in_word then count_tokens true s'
           else S (count_tokens true s')
  end.

(** [s.split()] itself; [cur] is the token being read, reversed. *)
Fixpoint split_from (cur : option string) (s : string) : list string :=
  match s with
  | EmptyString => match cur with Some w => [w] | None => [] end
  | String c s' =>
      if isspace c
      then match cur with
           | Some w => w :: split_from None s'
           | None => split_from None s'
           end
      else split_from
             (Some (match cur with
                    | Some w => w +:+ String c EmptyString
                    | None => String c EmptyString
                    end)) s'
  end.

Definition split (s : string) : list string := split_from None s.

(** [s.lstrip()], [s.rstrip()], [s.strip()]. *)
Fixpoint lstrip (s : string) : string :=
  match s with
  | EmptyString => EmptyString
  | String c s' => if isspace c then lstrip s' else s
  end.

Fixpoint rstrip (s : string) : string :=
  match s with
  | EmptyString => EmptyString
  | String c s' =>
      match rstrip s' with
      | EmptyString => if isspace c then EmptyString else String c EmptyString
      | r => String c r
      end
  end.

Definition strip (s : string) : string := rstrip (lstrip s).

(** [s.endswith(c)] for a one-character suffix. *)
Fixpoint ends_with_char (c : ascii) (s : string) : bool :=
  match s with
  | EmptyString => false
  | String a EmptyString => if ascii_dec a c then true else false
  | String _ s' => ends_with_char c s'
  end.

(** [sep.join(parts)]. *)
Fixpoint join (sep : string) (parts : list string) : string :=
  match parts with
  | [] => EmptyString
  | [p] => p
  | p :: rest => p +:+ sep +:+ join sep rest
  end.

(** *** Regular expressions of the shape [\b literal \b] *)

Definition word_opt (c : option ascii) : bool :=
  match c with Some a => is_word a | None => false end.

(** [\b] between the character before and the character after. *)
Definition at_boundary (prev next : option ascii) : bool :=
  xorb (word_opt prev) (word_opt next).

Definition head_char (s : string) : option ascii :=
  match s with EmptyString => None | String c _ => Some c end.

(** The last character of [prev] followed by [p]. *)
Fixpoint last_char (prev : option ascii) (p : string) : option ascii :=
  match p with
  | EmptyString => prev
  | String c p' => last_char (Some c) p'
  end.

(** The text after the literal [p], when [s] starts with [p]. *)
Fixpoint match_literal (p s : string) : option string :=
  match p with
  | EmptyString => Some s
  | String a p' =>
      match s with
      | EmptyString => None
      | String b s' => if ascii_dec a b then match_literal p' s' else None
      end
  end.

(** Does [\b p \b] match at the position where [s] starts and [prev] is
    the character before it? *)
Definition match_here (p : string) (prev : option ascii) (s : string) : bool :=
  at_boundary prev (head_char s) &&
  match match_literal p s with
  | Some rest => at_boundary (last_char prev p) (head_char rest)
  | None => false
  end.

(** [len(re.findall(r"\b" + re.escape(p) + r"\b", s))]: matches are
    searched left to right and do not overlap; after a match the search
    resumes behind it ([skip] counts the characters still covered by the
    last match). *)
Fixpoint scan (p : string) (skip : nat) (prev : option ascii) (s : string) : nat :=
  match s with
  | EmptyString =>
      match skip with
      | O => if match_here p prev EmptyString then 1 else 0
      | S _ => 0
      end
  | String c s' =>
      match skip with
      | S k => scan p k (Some c) s'
      | O =>
          if match_here p prev s
          then S (scan p (String.length p - 1) (Some c) s')
          else scan p 0 (Some c) s'
      end
  end.

Definition findall_count (p s : string) : nat := scan p 0 None s.

End PyStr.

(* ===================================================================== *)
(** ** Python numbers *)
(* ===================================================================== *)

Module PyNum.

Local Open Scope Q_scope.

Definition Qltb (x y : Q) : bool := negb (Qle_bool y x).
Definition Qleb (x y : Q) : bool := Qle_bool x y.
Definition of_nat (n : nat) : Q := inject_Z (Z.of_nat n).

(** The integer nearest to [x], ties to the even integer. *)
Definition round_half_even (x : Q) : Z :=
  let f := Qfloor x in
  match Qcompare (x - inject_Z f) (1 # 2) with
  | Lt => f
  | Gt => (f + 1)%Z
  | Eq => if Z.even f then f else (f + 1)%Z
  end.

Definition pow10 (ndigits : nat) : Q := inject_Z (10 ^ Z.of_nat ndigits).

(** [round(x, ndigits)]. *)
Definition py_round (x : Q) (ndigits : nat) : Q :=
  Qred (inject_Z (round_half_even (x * pow10 ndigits)) / pow10 ndigits).

(** [sum(xs)]: the accumulator starts at 0 and the items are added from
    the left. *)
Definition py_sum (xs : list Q) : Q := fold_left Qplus xs 0.

End PyNum.

(* ===================================================================== *)
(** ** speech_metrics.py *)
(* ===================================================================== *)

Module SpeechMetrics.

Import PyStr PyNum.

(** One utterance of the transcript; a key the mapping lacks is [None]. *)
Record Message := {
  role : option string;
  text : option string;
  timestamp : option Q;
}.

(** The transcript mapping, through its ["messages"] entry. *)
Record Transcript := {
  messages : option (list Message);
}.

Record FillerWords := {
  total : nat;
  per_minute : Q;
  breakdown : gmap string nat;
}.

Record TalkListenRatio := {
  user_percent : Q;
  prospect_percent : Q;
  assessment : string;
}.

Record MessageCount := {
  user : nat;
  assistant : nat;
}.

Record Metrics := {
  words_per_minute : Q;
  wpm_assessment : string;
  total_user_words : nat;
  total_assistant_words : nat;
  filler_words : FillerWords;
  talk_listen_ratio : TalkListenRatio;
  longest_monologue_words : nat;
  questions_asked : nat;
  message_count : MessageCount;
}.

Definition FILLER_WORDS : gset string :=
  {[ "um"; "uh"; "uh-huh"; "like"; "you know"; "basically"; "actually";
     "literally"; "honestly"; "right"; "so"; "well"; "i mean"; "sort of";
     "kind of" ]}.

Definition _count_words (t : string) : nat :=
  if decide (strip t = "") then 0 else length (split t).

Definition _count_fillers (t : string) : gmap string nat :=
  let text_lower := lower t in
  set_to_map (fun filler => (filler, findall_count filler text_lower))
             FILLER_WORDS.

Definition _assess_wpm (wpm : Q) : string :=
  if Qltb wpm 110 then "too_slow"
  else if Qleb wpm 160 then "ideal"
  else "too_fast".

Definition _assess_talk_ratio (user_percent : Q) : string :=
  if Qltb user_percent 30 then "too_quiet"
  else if Qleb user_percent 60 then "ideal"
  else "talking_too_much".

Definition _empty_metrics : Metrics := {|
  words_per_minute := 0;
  wpm_assessment := "no_data";
  total_user_words := 0;
  total_assistant_words := 0;
  filler_words := {| total := 0; per_minute := 0; breakdown := ∅ |};
  talk_listen_ratio :=
    {| user_percent := 0; prospect_percent := 0; assessment := "no_data" |};
  longest_monologue_words := 0;
  questions_asked := 0;
  message_count := {| user := 0; assistant := 0 |};
|}.

Definition has_role (r : string) (m : Message) : bool :=
  bool_decide (role m = Some r).

(** [m.get("text", "")]. *)
Definition get_text (m : Message) : string := default "" (text m).

(** [sum(filler_counts.values())]. *)
Definition sum_values (counts : gmap string nat) : nat :=
  map_fold (fun _ v acc => acc + v)%nat 0%nat counts.

(** The loop that keeps the largest word count of a single user turn. *)
Definition longest_turn (user_messages : list Message) : nat :=
  fold_left
    (fun longest_monologue m =>
       let word_count := _count_words (get_text m) in
       if (longest_monologue <? word_count)%nat then word_count
       else longest_monologue)
    user_messages 0%nat.

Definition analyze_speech_metrics (transcript : Transcript)
           (duration_seconds : Q) : Metrics :=
  let msgs := default [] (messages transcript) in
  if bool_decide (msgs = []) || Qleb duration_seconds 0 then _empty_metrics
  else
    let user_messages := List.filter (has_role "user") msgs in
    let assistant_messages := List.filter (has_role "assistant") msgs in
    let user_text := join " " (map get_text user_messages) in
    let assistant_text := join " " (map get_text assistant_messages) in
    let user_words := _count_words user_text in
    let assistant_words := _count_words assistant_text in
    let total_words := (user_words + assistant_words)%nat in
    let duration_minutes := (duration_seconds / 60)%Q in
    let wpm :=
      if Qltb 0 duration_minutes
      then py_round (of_nat user_words / duration_minutes) 1 else 0%Q in
    let filler_counts := _count_fillers user_text in
    let total_fillers := sum_values filler_counts in
    let filler_rate :=
      if Qltb 0 duration_minutes
      then py_round (of_nat total_fillers / duration_minutes) 1 else 0%Q in
    let talk_ratio :=
      if (0 <? total_words)%nat
      then py_round ((of_nat user_words / of_nat total_words) * 100) 1
      else 0%Q in
    let longest_monologue := longest_turn user_messages in
    let questions :=
      length (List.filter
                (fun m => ends_with_char "?" (strip (get_text m)))
                user_messages) in
    {| words_per_minute := wpm;
       wpm_assessment := _assess_wpm wpm;
       total_user_words := user_words;
       total_assistant_words := assistant_words;
       filler_words :=
         {| total := total_fillers;
            per_minute := filler_rate;
            breakdown := filter (fun kv => (0 < kv.2)%nat) filler_counts |};
       talk_listen_ratio :=
         {| user_percent := talk_ratio;
            prospect_percent := py_round (100 - talk_ratio) 1;
            assessment := _assess_talk_ratio talk_ratio |};
       longest_monologue_words := longest_monologue;
       questions_asked := questions;
       message_count :=
         {| user := length user_messages;
            assistant := length assistant_messages |} |}.

End SpeechMetrics.


(* ===================================================================== *)
(** ** emotion_analysis.py *)
(* ===================================================================== *)

Module EmotionAnalysis.

Import PyNum.

(** One prosody reading; a key the mapping lacks is [None]. *)
Record Reading := {
  role : option string;
  emotions : option (gmap string Q);
  timestamp : option Q;
}.

(** The telemetry mapping, through its ["prosody_scores"] entry. *)
Record EmotionData := {
  prosody_scores : option (list Reading);
}.

Record DominantEmotion := {
  dimension : string;
  score : Q;
}.

(** A point of the timeline: ["index"], ["timestamp"], then one entry
    per coaching dimension. *)
Record TimelinePoint := {
  point_index : nat;
  point_timestamp : option Q;
  point_scores : list (string * Q);
}.

Record EmotionSummary := {
  dimension_averages : list (string * Q);
  dominant_emotions : list DominantEmotion;
  timeline : list TimelinePoint;
  total_readings : nat;
}.

Definition COACHING_EMOTIONS : list (string * list string) :=
  [ ("Confidence", ["Determination"; "Confidence"; "Conviction"]);
    ("Enthusiasm", ["Excitement"; "Joy"; "Interest"]);
    ("Hesitation", ["Doubt"; "Confusion"; "Anxiety"]);
    ("Empathy", ["Sympathy"; "Compassion"; "Understanding"]);
    ("Frustration", ["Anger"; "Annoyance"; "Contempt"]) ].

Definition _empty_summary : EmotionSummary := {|
  dimension_averages := map (fun d => (d.1, 0%Q)) COACHING_EMOTIONS;
  dominant_emotions := [];
  timeline := [];
  total_readings := 0;
|}.

(** [[emotions.get(e, 0.0) for e in related_emotions if e in emotions]] *)
Definition present_scores (emo : gmap string Q) (related : list string)
  : list Q :=
  omap (fun e => emo !! e) related.

(** [sum(scores) / len(scores)] *)
Definition mean (scores : list Q) : Q :=
  (py_sum scores / of_nat (length scores))%Q.

(** [d[k].append(x)] on a dict of lists. *)
Definition dict_append (k : string) (x : Q) (d : list (string * list Q))
  : list (string * list Q) :=
  map (fun kv : string * list Q =>
         if decide (kv.1 = k) then (kv.1, (kv.2 ++ [x])%list) else kv) d.

(** [reading.get("emotions", {})] *)
Definition get_emotions (r : Reading) : gmap string Q :=
  default ∅ (emotions r).

(** The first loop: per-reading averages, gathered per dimension. *)
Definition collect_scores (user_readings : list Reading)
  : list (string * list Q) :=
  fold_left
    (fun dimension_scores reading =>
       let emo := get_emotions reading in
       fold_left
         (fun ds dr =>
            let scores := present_scores emo dr.2 in
            match scores with
            | [] => ds
            | _ => dict_append dr.1 (mean scores) ds
            end)
         COACHING_EMOTIONS dimension_scores)
    user_readings
    (map (fun d => (d.1, @nil Q)) COACHING_EMOTIONS).

(** The second loop: the rounded average of every dimension. *)
Definition compute_averages (dimension_scores : list (string * list Q))
  : list (string * Q) :=
  map (fun ds =>
         match ds.2 with
         | [] => (ds.1, 0%Q)
         | _ => (ds.1, py_round (mean ds.2) 3)
         end)
      dimension_scores.

(** [sorted(items, key=..., reverse=True)]: a stable sort, largest key
    first; items with equal keys keep their order. *)
Fixpoint insert_desc {A} (key : A -> Q) (x : A) (l : list A) : list A :=
  match l with
  | [] => [x]
  | y :: l' =>
      if Qltb (key x) (key y) then y :: insert_desc key x l'
      else x :: y :: l'
  end.

Definition sorted_desc {A} (key : A -> Q) (l : list A) : list A :=
  foldr (insert_desc key) [] l.

(** One timeline point. *)
Definition timeline_point (i : nat) (reading : Reading) : TimelinePoint :=
  let emo := get_emotions reading in
  {| point_index := i;
     point_timestamp := timestamp reading;
     point_scores :=
       map (fun dr =>
              let scores := present_scores emo dr.2 in
              match scores with
              | [] => (dr.1, 0%Q)
              | _ => (dr.1, py_round (mean scores) 3)
              end)
           COACHING_EMOTIONS |}.

Definition summarize_emotions (emotion_data : EmotionData) : EmotionSummary :=
  let prosody := default [] (prosody_scores emotion_data) in
  match prosody with
  | [] => _empty_summary
  | _ =>
      let user_readings :=
        List.filter (fun s => bool_decide (role s = Some "user")) prosody in
      match user_readings with
      | [] => _empty_summary
      | _ =>
          let averages := compute_averages (collect_scores user_readings) in
          let dominant := sorted_desc snd averages in
          {| dimension_averages := averages;
             dominant_emotions :=
               map (fun ds => {| dimension := ds.1; score := ds.2 |})
                   (firstn 3 dominant);
             timeline := imap timeline_point user_readings;
             total_readings := length user_readings |}
      end
  end.

End EmotionAnalysis.

(* ===================================================================== *)
(** ** The session store *)
(* ===================================================================== *)

Module Store.

Definition uuid := N.

#[local] Unset Elimination Schemes.
Inductive json :=
| JNull
| JBool (b : bool)
| JNum (q : Q)
| JStr (s : string)
| JArr (items : list json)
| JObj (fields : list (string * json)).
#[local] Set Elimination Schemes.

(** What a key of [analysis_results] can hold. *)
Inductive analysis_value :=
| AJson (j : json)
| ASpeech (m : SpeechMetrics.Metrics)
| AEmotion (e : EmotionAnalysis.EmotionSummary).

(** The [callsession] row. *)
Record CallSession := {
  id : uuid;
  owner_id : uuid;
  persona : string;
  scenario : option string;
  status : string;
  duration_seconds : option Q;
  hume_chat_id : option string;
  transcript : option SpeechMetrics.Transcript;
  emotion_data : option EmotionAnalysis.EmotionData;
  analysis_results : option (gmap string analysis_value);
}.

Definition set_status (v : string) (c : CallSession) : CallSession :=
  {| id := id c; owner_id := owner_id c; persona := persona c;
     scenario := scenario c; status := v;
     duration_seconds := duration_seconds c; hume_chat_id := hume_chat_id c;
     transcript := transcript c; emotion_data := emotion_data c;
     analysis_results := analysis_results c |}.

Definition set_analysis_results (v : gmap string analysis_value)
           (c : CallSession) : CallSession :=
  {| id := id c; owner_id := owner_id c; persona := persona c;
     scenario := scenario c; status := status c;
     duration_seconds := duration_seconds c; hume_chat_id := hume_chat_id c;
     transcript := transcript c; emotion_data := emotion_data c;
     analysis_results := Some v |}.

(** A unit of work on the table: the committed rows, and the objects
    whose changes are not committed yet. *)
Record Session := {
  rows : gmap uuid CallSession;
  pending : gmap uuid CallSession;
}.

Definition open_session (db : gmap uuid CallSession) : Session :=
  {| rows := db; pending := ∅ |}.

Inductive exn :=
| APIError
| IndexError
| JSONDecodeError
| TypeError.

(** Computations on a session that may raise. *)
Definition M (A : Type) : Type := Session -> (A + exn) * Session.

Definition ret {A} (a : A) : M A := fun s => (inl a, s).
Definition raise {A} (e : exn) : M A := fun s => (inr e, s).
Definition bind {A B} (c : M A) (k : A -> M B) : M B :=
  fun s => match c s with
           | (inl a, s') => k a s'
           | (inr e, s') => (inr e, s')
           end.
(** [try: body except Exception: handler] *)
Definition try_except {A} (body handler : M A) : M A :=
  fun s => match body s with
           | (inl a, s') => (inl a, s')
           | (inr _, s') => handler s'
           end.
(** A result of the outside world, lifted. *)
Definition lift {A} (r : A + exn) : M A := fun s => (r, s).

(** [session.get(CallSession, key)] *)
Definition get (key : uuid) : M (option CallSession) :=
  fun s => (inl (match pending s !! key with
                 | Some c => Some c
                 | None => rows s !! key
                 end), s).
(** [session.add(call)], with the attribute values [call] has now. *)
Definition add (call : CallSession) : M unit :=
  fun s => (inl tt, {| rows := rows s;
                       pending := <[id call := call]> (pending s) |}).
(** [session.commit()] *)
Definition commit : M unit :=
  fun s => (inl tt, {| rows := pending s ∪ rows s; pending := ∅ |}).
(** [session.rollback()] *)
Definition rollback : M unit :=
  fun s => (inl tt, {| rows := rows s; pending := ∅ |}).

End Store.

Declare Scope py_scope.
Delimit Scope py_scope with py.
Notation "'let!' x := c 'in' k" := (Store.bind c (fun x => k))
  (at level 10, x name, c at level 100, k at level 200, only parsing) : py_scope.
Notation "'do!' c 'in' k" := (Store.bind c (fun _ => k))
  (at level 10, c at level 100, k at level 200, only parsing) : py_scope.

(* ===================================================================== *)
(** ** coaching_report.py *)
(* ===================================================================== *)

Module CoachingReport.

Import Store.
Local Open Scope py_scope.

(** [dict(report_data)] as done by [{**report_data, ...}]: only a JSON
    object unpacks; of two equal keys the later one stays. *)
Definition unpack (j : json) : gmap string analysis_value + exn :=
  match j with
  | JObj fields => inl (list_to_map (rev (map (fun kv => (kv.1, AJson kv.2)) fields)))
  | _ => inr TypeError
  end.

Definition MISSING_DATA : gmap string analysis_value :=
  {[ "error" := AJson (JStr "Missing transcript or duration data") ]}.

Definition ANALYSIS_FAILED : gmap string analysis_value :=
  {[ "error" := AJson (JStr "Analysis failed. Please try again.") ]}.

(** [not call.transcript]: absent, or the empty mapping. *)
Definition not_transcript (t : option SpeechMetrics.Transcript) : bool :=
  match t with
  | None => true
  | Some t => match SpeechMetrics.messages t with None => true | Some _ => false end
  end.

(** [not call.duration_seconds]: absent, or zero. *)
Definition not_duration (d : option Q) : bool :=
  match d with
  | None => true
  | Some d => Qeq_bool d 0
  end.

Section Job.

(** The prompt texts, the model service and the JSON decoder are
    outside this development. *)
Variable COACHING_SYSTEM_PROMPT : string.
Variable _build_analysis_prompt :
  SpeechMetrics.Transcript -> SpeechMetrics.Metrics ->
  EmotionAnalysis.EmotionSummary -> string -> string.
(** [client.chat.completions.create(...)]: the call raises, or answers
    with the message contents of its choices. *)
Variable create_completion : string -> string -> list (option string) + exn.
(** [json.loads]: [None] when the text is not JSON. *)
Variable json_loads : string -> option json.

Definition analysis_body (call : CallSession)
           (tr : SpeechMetrics.Transcript) (dur : Q) : M unit :=
  let call := set_status "analyzing" call in
  do! add call in
  do! commit in
  let speech_metrics := SpeechMetrics.analyze_speech_metrics tr dur in
  let emotion_summary :=
    EmotionAnalysis.summarize_emotions
      (default {| EmotionAnalysis.prosody_scores := None |}
               (emotion_data call)) in
  let user_prompt :=
    _build_analysis_prompt tr speech_metrics emotion_summary (persona call) in
  let! choices := lift (create_completion COACHING_SYSTEM_PROMPT user_prompt) in
  let! report_text := match choices with
                      | [] => raise IndexError
                      | c :: _ => ret c
                      end in
  let! report_data := match report_text with
                      | None | Some "" => ret (JObj [])
                      | Some t => match json_loads t with
                                  | Some j => ret j
                                  | None => raise JSONDecodeError
                                  end
                      end in
  let! report := lift (unpack report_data) in
  let call :=
    set_analysis_results
      (<["emotion_summary" := AEmotion emotion_summary]>
         (<["speech_metrics" := ASpeech speech_metrics]> report))
      call in
  let call := set_status "done" call in
  do! add call in
  commit.

Definition analysis_failed (call_session_id : uuid) : M unit :=
  do! rollback in
  let! call := get call_session_id in
  match call with
  | Some call =>
      let call := set_status "error" call in
      let call := set_analysis_results ANALYSIS_FAILED call in
      do! add call in
      commit
  | None => ret tt
  end.

Definition generate_coaching_report (call_session_id : uuid) : M unit :=
  let! call := get call_session_id in
  match call with
  | None => ret tt
  | Some call =>
      if not_transcript (transcript call) || not_duration (duration_seconds call)
      then
        let call := set_status "error" call in
        let call := set_analysis_results MISSING_DATA call in
        do! add call in
        commit
      else
        match transcript call, duration_seconds call with
        | Some tr, Some dur =>   (* both are there past the check *)
            try_except (analysis_body call tr dur)
                       (analysis_failed call_session_id)
        | _, _ => ret tt
        end
  end.

(** The job runs with a session of its own on the table. *)
Definition run_job (call_session_id : uuid) (db : gmap uuid CallSession)
  : (unit + exn) * gmap uuid CallSession :=
  let r := generate_coaching_report call_session_id (open_session db) in
  (r.1, rows r.2).

End Job.

End CoachingReport.

(* ===================================================================== *)
(** ** routes/calls.py: the analysis trigger *)
(* ===================================================================== *)

Module Calls.

Import Store.

Record User := {
  user_id : uuid;
  is_superuser : bool;
}.

Inductive HTTPException :=
| HTTPError (status_code : nat) (detail : string).

(** A task handed to the background runner. *)
Inductive Task :=
| GenerateCoachingReport (call_session_id : uuid).

(** The route answers with a message or raises; the tasks it scheduled
    come with the answer. *)
Definition analyze_call_session (db : gmap uuid CallSession)
           (current_user : User) (call_id : uuid)
           (background_tasks : list Task)
  : (string + HTTPException) * list Task :=
  match db !! call_id with
  | None => (inr (HTTPError 404 "Call session not found"), background_tasks)
  | Some call =>
      if negb (bool_decide (owner_id call = user_id current_user))
      then (inr (HTTPError 400 "Not enough permissions"), background_tasks)
      else if negb (bool_decide (status call = "completed")
                    || bool_decide (status call = "error"))
      then (inr (HTTPError 400
                   ("Call must be completed before analysis. Current status: "
                    +:+ status call)),
            background_tasks)
      else (inl "Analysis started",
            (background_tasks ++ [GenerateCoachingReport (id call)])%list)
  end.

End Calls.

(* ===================================================================== *)
(** ** Vocabulary of the stated properties *)
(* ===================================================================== *)

Module PyStrSpec.

Import PyStr.




(** The number of positions of [s] at which [\b p \b] matches; [prev] is
    the character before [s]. *)
Fixpoint occurrences (p : string) (prev : option ascii) (s : string) : nat :=
  (if match_here p prev s then 1 else 0)
  + match s with
    | EmptyString => 0
    | String c s' => occurrences p (Some c) s'
    end.

(** No match begins at the next [n] positions. *)
Fixpoint quiet (p : string) (n : nat) (prev : option ascii) (s : string)
  : Prop :=
  match n with
  | O => True
  | S k => match_here p prev s = false /\
           match s with
           | EmptyString => True
           | String c s' => quiet p k (Some c) s'
           end
  end.

(** No proper suffix [q] of [p] that starts at a word boundary is a
    prefix of [p]; [c] is the character before [q]. *)
Fixpoint gap_free (p : string) (c : ascii) (q : string) : bool :=
  match q with
  | EmptyString => true
  | String a q' =>
      negb (at_boundary (Some c) (Some a)
            && bool_decide (is_Some (match_literal q p)))
      && gap_free p a q'
  end.

Definition no_overlap (p : string) : bool :=
  match p with
  | EmptyString => true
  | String a p' => gap_free p a p'
  end.

End PyStrSpec.

Module SpeechMetricsSpec.

Import PyStr SpeechMetrics.

(** The words spoken under one role, utterance by utterance. *)
Definition role_words (r : string) (msgs : list Message) : nat :=
  list_sum (map (fun m => length (split (get_text m)))
                (List.filter (has_role r) msgs)).

(** The joined text of one role. *)
Definition role_text (r : string) (msgs : list Message) : string :=
  join " " (map get_text (List.filter (has_role r) msgs)).

(** The catalog, in the order it is written. *)
Definition FILLER_LIST : list string :=
  [ "um"; "uh"; "uh-huh"; "like"; "you know"; "basically"; "actually";
    "literally"; "honestly"; "right"; "so"; "well"; "i mean"; "sort of";
    "kind of" ].

Definition hello : Message :=
  {| role := Some "user"; text := Some "Hello."; timestamp := None |}.


Definition only_assistant : Transcript :=
  {| messages := Some
       [ {| role := Some "assistant"; text := Some "Go ahead.";
            timestamp := None |} ] |}.


Definition filler_transcript : Transcript :=
  {| messages := Some
       [ {| role := Some "user";
            text := Some "Um, so like, I basically wanted to, you know, talk about our product. Sokind of.";
            timestamp := None |};
         {| role := Some "assistant"; text := Some "So, um, go ahead.";
            timestamp := None |} ] |}.

End SpeechMetricsSpec.

Module EmotionSpec.

Import PyNum EmotionAnalysis.

Definition is_user (r : Reading) : bool := bool_decide (role r = Some "user").

(** Has the reading a score for one of the labels? *)
Definition has_sample (related : list string) (r : Reading) : bool :=
  existsb (fun e => bool_decide (is_Some (get_emotions r !! e))) related.

(** The average of the labels of [related] that the reading has. *)
Definition reading_mean (related : list string) (r : Reading) : Q :=
  mean (present_scores (get_emotions r) related).

(** The overall average of a dimension, in the words of its description:
    the mean of the per-reading means over the readings that have a sample,
    rounded to three places; 0 when no reading has one. *)
Definition overall_average (related : list string) (readings : list Reading)
  : Q :=
  match List.filter (has_sample related) readings with
  | [] => 0%Q
  | sampled => py_round (mean (map (reading_mean related) sampled)) 3
  end.

(** The score of a dimension in one timeline point. *)
Definition reading_score (related : list string) (r : Reading) : Q :=
  if has_sample related r then py_round (reading_mean related r) 3 else 0%Q.

(** What one reading adds to the list of a dimension. *)
Definition sample (related : list string) (r : Reading) : list Q :=
  match present_scores (get_emotions r) related with
  | [] => []
  | scores => [mean scores]
  end.

(** The dict of the first loop, with the lists of the five dimensions. *)
Definition scores_dict (l1 l2 l3 l4 l5 : list Q) : list (string * list Q) :=
  [ ("Confidence", l1); ("Enthusiasm", l2); ("Hesitation", l3);
    ("Empathy", l4); ("Frustration", l5) ].

(** The constituent labels of a dimension. *)
Definition labels (dim : string) : list string :=
  default [] (snd <$> List.find (fun dr => bool_decide (dr.1 = dim))
                                COACHING_EMOTIONS).

(** One turn of the inner loop. *)
Definition visit (r : Reading) (ds : list (string * list Q))
           (dr : string * list string) : list (string * list Q) :=
  match present_scores (get_emotions r) dr.2 with
  | [] => ds
  | _ => dict_append dr.1 (mean (present_scores (get_emotions r) dr.2)) ds
  end.

(** Largest key first. *)
Definition desc {A} (key : A -> Q) (x y : A) : Prop := (key y <= key x)%Q.

Definition reading (r : string) (e : list (string * Q)) (t : Z) : Reading :=
  {| role := Some r; emotions := Some (list_to_map e);
     timestamp := Some (inject_Z t) |}.

Definition two_user_readings : EmotionData :=
  {| prosody_scores := Some
       [ reading "user"
           [("Determination", 8 # 10); ("Confidence", 7 # 10);
            ("Excitement", 6 # 10); ("Joy", 5 # 10); ("Interest", 4 # 10);
            ("Doubt", 1 # 10)]%Q 1000;
         reading "assistant" [("Anger", 1%Q)] 1500;
         reading "user"
           [("Determination", 9 # 10); ("Confidence", 8 # 10);
            ("Excitement", 7 # 10); ("Joy", 6 # 10); ("Interest", 5 # 10)]%Q
           2000 ] |}.



End EmotionSpec.

Module ReportSpec.

Import Store CoachingReport.

(** The two derived results of a run. *)
Definition speech_of (tr : SpeechMetrics.Transcript) (dur : Q) :=
  SpeechMetrics.analyze_speech_metrics tr dur.

Definition emotion_of (call : CallSession) :=
  EmotionAnalysis.summarize_emotions
    (default {| EmotionAnalysis.prosody_scores := None |} (emotion_data call)).

Section Report.

Variable COACHING_SYSTEM_PROMPT : string.
Variable _build_analysis_prompt :
  SpeechMetrics.Transcript -> SpeechMetrics.Metrics ->
  EmotionAnalysis.EmotionSummary -> string -> string.
Variable create_completion : string -> string -> list (option string) + exn.
Variable json_loads : string -> option json.

(** The report object the model call delivers: the call answers, its
    first choice is empty or decodes, and what it decodes to is an
    object.  [None] stands for every failure on the way. *)
Definition model_report (call : CallSession)
           (tr : SpeechMetrics.Transcript) (dur : Q)
  : option (gmap string analysis_value) :=
  let prompt :=
    _build_analysis_prompt tr (speech_of tr dur) (emotion_of call)
                           (persona call) in
  match create_completion COACHING_SYSTEM_PROMPT prompt with
  | inl (content :: _) =>
      let decoded :=
        match content with
        | None | Some "" => Some (JObj [])
        | Some t => json_loads t
        end in
      match decoded with
      | Some j => match unpack j with inl m => Some m | inr _ => None end
      | None => None
      end
  | _ => None
  end.

End Report.

(** The report with the two derived results put under their keys. *)
Definition merged (call : CallSession) (tr : SpeechMetrics.Transcript)
           (dur : Q) (report : gmap string analysis_value)
  : gmap string analysis_value :=
  <["emotion_summary" := AEmotion (emotion_of call)]>
    (<["speech_metrics" := ASpeech (speech_of tr dur)]> report).

(** The row after a successful run. *)
Definition done_row (call : CallSession) (tr : SpeechMetrics.Transcript)
           (dur : Q) (report : gmap string analysis_value) : CallSession :=
  set_status "done"
    (set_analysis_results (merged call tr dur report)
                          (set_status "analyzing" call)).

(** The row after a failed run: the row of the checkpoint, read again,
    with the error put in. *)
Definition failed_row (call : CallSession) : CallSession :=
  set_analysis_results ANALYSIS_FAILED
    (set_status "error" (set_status "analyzing" call)).

(** The row after the data check has failed. *)
Definition missing_row (call : CallSession) : CallSession :=
  set_analysis_results MISSING_DATA (set_status "error" call).

(** *** A sample world *)

Definition sample_prompt (tr : SpeechMetrics.Transcript)
           (m : SpeechMetrics.Metrics) (e : EmotionAnalysis.EmotionSummary)
           (persona : string) : string := persona.

(** A decoder that knows two texts. *)
Definition sample_loads (t : string) : option json :=
  if decide (t = "report") then Some (JObj [("overall_score", JNum 82)])
  else if decide (t = "list") then Some (JArr [])
  else None.

Definition answers (content : string) (sys user : string)
  : list (option string) + exn := inl [Some content].

Definition refuses (sys user : string) : list (option string) + exn :=
  inr APIError.

Definition sample_call (dur : Q) : CallSession :=
  {| id := 7%N; owner_id := 1%N; persona := "friendly_prospect";
     scenario := None; status := "completed"; duration_seconds := Some dur;
     hume_chat_id := None;
     transcript := Some {| SpeechMetrics.messages := Some
        [ {| SpeechMetrics.role := Some "user";
             SpeechMetrics.text := Some "Hello, I wanted to discuss our product.";
             SpeechMetrics.timestamp := Some 1000%Q |};
          {| SpeechMetrics.role := Some "assistant";
             SpeechMetrics.text := Some "Sure, tell me more.";
             SpeechMetrics.timestamp := Some 2000%Q |} ] |};
     emotion_data := None; analysis_results := None |}.

Definition sample_db (dur : Q) : gmap uuid CallSession :=
  {[ 7%N := sample_call dur ]}.

(** A session that was never completed. *)
Definition fresh_call : CallSession :=
  {| id := 9%N; owner_id := 1%N; persona := "skeptical_buyer";
     scenario := None; status := "active"; duration_seconds := None;
     hume_chat_id := None; transcript := None; emotion_data := None;
     analysis_results := None |}.

End ReportSpec.

Module CallsSpec.

Import Store Calls.

(** The trigger scheduled the job for [call]. *)
Definition invoked (call : CallSession) (before after : list Task) : Prop :=
  after = (before ++ [GenerateCoachingReport (id call)])%list.

(** The trigger answered with an HTTP error. *)
Definition rejected (answer : string + HTTPException) : Prop :=
  exists code detail, answer = inr (HTTPError code detail).

Definition owner : User := {| user_id := 1%N; is_superuser := false |}.

Definition with_status (s : string) : gmap uuid CallSession :=
  {[ 7%N := set_status s (ReportSpec.sample_call 120) ]}.

End CallsSpec.

(* ===================================================================== *)
(** ** sales_personas.py *)
(* ===================================================================== *)

Module SalesPersonas.

(** The value of a persona in [PERSONAS]. *)
Record Persona := {
  name : string;
  description : string;
  system_prompt : string;
}.

(** An item of the list of personas. *)
Record PersonaInfo := {
  info_id : string;
  info_name : string;
  info_description : string;
}.

(** The line feed of the prompt texts. *)
Definition nl : string := String (ascii_of_nat 10) "".

(** The dict, in the order it is written: the order of its items. *)
Definition PERSONAS : list (string * Persona) :=
  [ ("friendly_prospect",
     {| name := "Friendly Prospect";
        description := "A warm, interested buyer who is open to hearing your pitch. Great for beginners to practice their sales flow.";
        system_prompt :=
          "You are Sarah Chen, a marketing director at a mid-size tech company. "
          +:+ "You are genuinely interested in solutions that could help your team. "
          +:+ "You are warm, engaged, and ask thoughtful questions. "
          +:+ "You have a budget approved and are actively evaluating options. "
          +:+ nl +:+ nl +:+ "Behavior guidelines:" +:+ nl
          +:+ "- Be friendly and encouraging, but still realistic" +:+ nl
          +:+ "- Ask clarifying questions about features and pricing" +:+ nl
          +:+ "- Share your pain points openly when asked" +:+ nl
          +:+ "- Show genuine interest with follow-up questions" +:+ nl
          +:+ "- If the salesperson does well, express enthusiasm" +:+ nl
          +:+ "- Stay in character throughout the entire conversation" +:+ nl
          +:+ "- Keep responses conversational and concise (2-4 sentences)" +:+ nl
     |});
    ("skeptical_buyer",
     {| name := "Skeptical Buyer";
        description := "A tough, questioning buyer who pushes back on claims. Tests your objection handling and resilience.";
        system_prompt :=
          "You are Marcus Rodriguez, VP of Operations at a Fortune 500 company. "
          +:+ "You have been burned by vendors before and are highly skeptical of sales pitches. "
          +:+ "You demand proof, question ROI claims, and push back on vague promises. "
          +:+ nl +:+ nl +:+ "Behavior guidelines:" +:+ nl
          +:+ "- Challenge every claim with 'How can you prove that?'" +:+ nl
          +:+ "- Bring up competitor products and ask why yours is better" +:+ nl
          +:+ "- Express doubt about implementation timelines" +:+ nl
          +:+ "- Ask tough questions about pricing, hidden costs, and contracts" +:+ nl
          +:+ "- If the salesperson handles objections well, gradually warm up" +:+ nl
          +:+ "- If they fumble, become more skeptical" +:+ nl
          +:+ "- Stay in character throughout the entire conversation" +:+ nl
          +:+ "- Keep responses conversational and concise (2-4 sentences)" +:+ nl
     |});
    ("busy_executive",
     {| name := "Busy Executive";
        description := "A time-pressed C-suite executive who wants the bottom line fast. Tests your ability to be concise and impactful.";
        system_prompt :=
          "You are Dr. Priya Patel, CEO of a fast-growing healthcare startup. "
          +:+ "You are extremely busy and have zero patience for fluff or long-winded pitches. "
          +:+ "You want to hear the bottom line immediately and make quick decisions. "
          +:+ nl +:+ nl +:+ "Behavior guidelines:" +:+ nl
          +:+ "- Interrupt if the salesperson rambles - say 'Get to the point'" +:+ nl
          +:+ "- Ask direct questions: 'What's the cost?' 'What's the ROI?'" +:+ nl
          +:+ "- Show impatience with generic pitches" +:+ nl
          +:+ "- Respond positively to data, metrics, and specific outcomes" +:+ nl
          +:+ "- If impressed, offer to schedule a follow-up with your team" +:+ nl
          +:+ "- Mention you have another meeting in 5 minutes" +:+ nl
          +:+ "- Stay in character throughout the entire conversation" +:+ nl
          +:+ "- Keep responses very short (1-2 sentences)" +:+ nl
     |}) ].

Definition get_personas_list : list PersonaInfo :=
  map (fun kp : string * Persona =>
         {| info_id := kp.1; info_name := name kp.2;
            info_description := description kp.2 |})
      PERSONAS.

(** [PERSONAS.get(persona_id)], then the prompt of the persona found; a
    persona, a dict with three keys, is truthy. *)
Definition get_persona_system_prompt (persona_id : string) : option string :=
  match List.find (fun kp : string * Persona => bool_decide (kp.1 = persona_id))
                  PERSONAS with
  | Some kp => Some (system_prompt kp.2)
  | None => None
  end.

End SalesPersonas.

(* ===================================================================== *)
(** ** routes/calls.py: the other routes of a session *)
(* ===================================================================== *)

Module CallsRoutes.

Import Store Calls.

(** [not current_user.is_superuser and call.owner_id != current_user.id] *)
Definition no_access (current_user : User) (call : CallSession) : bool :=
  negb (is_superuser current_user)
  && negb (bool_decide (owner_id call = user_id current_user)).

Definition list_personas : list SalesPersonas.PersonaInfo :=
  SalesPersonas.get_personas_list.

Definition get_call_session (db : gmap uuid CallSession)
           (current_user : User) (call_id : uuid)
  : CallSession + HTTPException :=
  match db !! call_id with
  | None => inr (HTTPError 404 "Call session not found")
  | Some call =>
      if no_access current_user call
      then inr (HTTPError 400 "Not enough permissions")
      else inl call
  end.

(** The body of the completion request, through the four attributes the
    route reads; each may be null, as the columns they are stored in. *)
Record CallSessionComplete := {
  data_duration_seconds : option Q;
  data_transcript : option SpeechMetrics.Transcript;
  data_emotion_data : option EmotionAnalysis.EmotionData;
  data_hume_chat_id : option string;
}.

(** The route also stamps [ended_at] with the clock; the record
    [CallSession] holds the columns that the job and the routes read,
    and [ended_at] is none of them. *)
Definition complete_call_session (db : gmap uuid CallSession)
           (current_user : User) (call_id : uuid) (data : CallSessionComplete)
  : (CallSession + HTTPException) * gmap uuid CallSession :=
  match db !! call_id with
  | None => (inr (HTTPError 404 "Call session not found"), db)
  | Some call =>
      if negb (bool_decide (owner_id call = user_id current_user))
      then (inr (HTTPError 400 "Not enough permissions"), db)
      else
        let call :=
          {| id := id call; owner_id := owner_id call;
             persona := persona call; scenario := scenario call;
             status := "completed";
             duration_seconds := data_duration_seconds data;
             hume_chat_id := data_hume_chat_id data;
             transcript := data_transcript data;
             emotion_data := data_emotion_data data;
             analysis_results := analysis_results call |} in
        (inl call, <[id call := call]> db)
  end.

(** How the report route can fail: with an HTTP error, whose detail is a
    text of the route or the value stored under "error"; or, past the
    checks, in building the response. *)
Inductive ReportFailure :=
| Http (status_code : nat) (detail : analysis_value)
| DuplicateKeyword (keyword : string)
| Invalid.

Definition text (s : string) : analysis_value := AJson (JStr s).

Section Report.

(** The response class is outside this development: it builds a
    response from the keyword arguments, or rejects them. *)
Variable Response : Type.
Variable CoachingReportPublic :
  gmap string analysis_value -> option SpeechMetrics.Transcript ->
  option Response.

Definition get_call_report (db : gmap uuid CallSession)
           (current_user : User) (call_id : uuid)
  : Response + ReportFailure :=
  match db !! call_id with
  | None => inr (Http 404 (text "Call session not found"))
  | Some call =>
      if no_access current_user call
      then inr (Http 400 (text "Not enough permissions"))
      else if bool_decide (status call ∈ ["active"; "completed"; "analyzing"])
      then inr (Http 202 (text "Analysis in progress"))
      else if bool_decide (status call = "error")
      then
        let error_msg :=
          default (text "Analysis failed")
                  (default ∅ (analysis_results call) !! "error") in
        inr (Http 422 error_msg)
      else
        match analysis_results call with
        | None => inr (Http 404 (text "Report not found"))
        | Some results =>
            if bool_decide (results = ∅)
            then inr (Http 404 (text "Report not found"))
            else if bool_decide (is_Some (results !! "transcript"))
            then inr (DuplicateKeyword "transcript")
            else match CoachingReportPublic results (transcript call) with
                 | Some response => inl response
                 | None => inr Invalid
                 end
        end
  end.

End Report.

Definition delete_call_session (db : gmap uuid CallSession)
           (current_user : User) (call_id : uuid)
  : (string + HTTPException) * gmap uuid CallSession :=
  match db !! call_id with
  | None => (inr (HTTPError 404 "Call session not found"), db)
  | Some call =>
      if no_access current_user call
      then (inr (HTTPError 400 "Not enough permissions"), db)
      else (inl "Call session deleted successfully", delete (id call) db)
  end.

End CallsRoutes.

(* ===================================================================== *)
(** ** Vocabulary of the further properties *)
(* ===================================================================== *)

Module SpeechMetricsTerms.

Import PyStr SpeechMetrics.

(** Every character of the text is whitespace. *)
Fixpoint all_space (s : string) : bool :=
  match s with
  | EmptyString => true
  | String c s' => isspace c && all_space s'
  end.

(** The words of one utterance. *)
Definition turn_words (m : Message) : nat := _count_words (get_text m).

(** The test of the question count on one utterance. *)
Definition is_question (m : Message) : bool :=
  ends_with_char "?" (strip (get_text m)).

(** A message of one of the two roles the metrics read. *)
Definition known_role (m : Message) : bool :=
  has_role "user" m || has_role "assistant" m.

Definition said (r t : string) : Message :=
  {| role := Some r; text := Some t; timestamp := None |}.

(** Two user turns, a question among them, and a remark of a third role. *)
Definition mixed_roles : Transcript :=
  {| messages := Some
       [ said "user" "Do you have collaboration challenges?  ";
         said "system" "um, recording started";
         said "assistant" "Yes, we struggle with remote communication.";
         said "user" "I see" ] |}.

(** Utterances without a word. *)
Definition silent : Transcript :=
  {| messages := Some [ said "user" "  "; said "assistant" "" ] |}.

End SpeechMetricsTerms.

Module EmotionTerms.

Import PyNum EmotionAnalysis EmotionSpec.

(** The fifteen labels the dimensions are made of. *)
Definition ALL_LABELS : list string := concat (map snd COACHING_EMOTIONS).

(** The reading without the scores of the labels no dimension names. *)
Definition known_labels (r : Reading) : Reading :=
  {| role := role r;
     emotions := filter (fun kv : string * Q => kv.1 ∈ ALL_LABELS) <$> emotions r;
     timestamp := timestamp r |}.

(** Every score of the reading lies between [lo] and [hi]. *)
Definition scores_within (lo hi : Q) (r : Reading) : Prop :=
  forall k v, get_emotions r !! k = Some v -> (lo <= v <= hi)%Q.

(** The reading has no score for a label of any dimension. *)
Definition no_sample (r : Reading) : bool :=
  forallb (fun dr : string * list string => negb (has_sample dr.2 r))
          COACHING_EMOTIONS.

(** The names of the listed dominant emotions. *)
Definition listed (s : EmotionSummary) : list string :=
  map dimension (dominant_emotions s).

(** A user reading with a label of a dimension and one of none. *)
Definition noisy_reading : Reading :=
  reading "user" [("Determination", 8 # 10); ("Boredom", 9 # 10)]%Q 1000.

(** A user reading without a label of a dimension. *)
Definition bare_reading : Reading := reading "user" [("Boredom", 1%Q)] 3000.

End EmotionTerms.

Module ReportTerms.

Import Store CoachingReport ReportSpec.

(** The table is keyed by the id column. *)
Definition keyed (db : gmap uuid CallSession) : Prop :=
  forall k c, db !! k = Some c -> id c = k.

(** The columns the job reads and does not write. *)
Definition same_inputs (a b : CallSession) : Prop :=
  id a = id b /\ owner_id a = owner_id b /\ persona a = persona b /\
  scenario a = scenario b /\ duration_seconds a = duration_seconds b /\
  hume_chat_id a = hume_chat_id b /\ transcript a = transcript b /\
  emotion_data a = emotion_data b.

Section Outcome.

Variable COACHING_SYSTEM_PROMPT : string.
Variable _build_analysis_prompt :
  SpeechMetrics.Transcript -> SpeechMetrics.Metrics ->
  EmotionAnalysis.EmotionSummary -> string -> string.
Variable create_completion : string -> string -> list (option string) + exn.
Variable json_loads : string -> option json.

(** The row a run of the job leaves for a stored session. *)
Definition outcome (call : CallSession) : CallSession :=
  match transcript call, duration_seconds call with
  | Some tr, Some dur =>
      if not_transcript (transcript call)
         || not_duration (duration_seconds call)
      then missing_row call
      else match model_report COACHING_SYSTEM_PROMPT _build_analysis_prompt
                                create_completion json_loads call tr dur with
           | Some report => done_row call tr dur report
           | None => failed_row call
           end
  | _, _ => missing_row call
  end.

End Outcome.

(** A response class that takes every report: the response is the pair
    of its arguments. *)
Definition any_report (results : gmap string analysis_value)
           (tr : option SpeechMetrics.Transcript)
  : option (gmap string analysis_value * option SpeechMetrics.Transcript) :=
  Some (results, tr).

Definition stranger : Calls.User :=
  {| Calls.user_id := 2%N; Calls.is_superuser := false |}.

Definition admin : Calls.User :=
  {| Calls.user_id := 3%N; Calls.is_superuser := true |}.

(** What the client sends when the call ends. *)
Definition sample_data : CallsRoutes.CallSessionComplete :=
  {| CallsRoutes.data_duration_seconds := Some 120%Q;
     CallsRoutes.data_transcript := transcript (sample_call 120);
     CallsRoutes.data_emotion_data := None;
     CallsRoutes.data_hume_chat_id := Some "chat-1" |}.

(** A table with a session that has ended and one that has not. *)
Definition two_sessions : gmap uuid CallSession :=
  <[9%N := fresh_call]> (sample_db 120).

End ReportTerms.

(* ===================================================================== *)
(** ** Facts about the text primitives *)
(* ===================================================================== *)

Module PyStrFacts.

Import PyStr PyStrSpec.

Lemma split_from_length cur s :
  length (split_from cur s)
  = match cur with
    | Some _ => S (count_tokens true s)
    | None => count_tokens false s
    end.
Proof.
  revert cur. induction s as [|c s IH]; intros cur; simpl.
  - destruct cur; reflexivity.
  - destruct (isspace c).
    + destruct cur; simpl; rewrite IH; reflexivity.
    + rewrite IH. destruct cur; reflexivity.
Qed.

Lemma split_length s : length (split s) = count_tokens false s.
Proof. apply (split_from_length None). Qed.

Lemma rstrip_empty_tokens s b : rstrip s = "" -> count_tokens b s = 0.
Proof.
  revert b. induction s as [|c s IH]; intros b; simpl; [reflexivity|].
  destruct (rstrip s) eqn:E.
  - destruct (isspace c); [intros _; apply IH; reflexivity | discriminate].
  - discriminate.
Qed.

Lemma lstrip_tokens s : count_tokens false (lstrip s) = count_tokens false s.
Proof.
  induction s as [|c s IH]; simpl; [reflexivity|].
  destruct (isspace c) eqn:E; [exact IH|].
  simpl. rewrite E. reflexivity.
Qed.

Lemma strip_empty_tokens s : strip s = "" -> count_tokens false s = 0.
Proof.
  unfold strip. intros H. rewrite <- lstrip_tokens.
  apply rstrip_empty_tokens, H.
Qed.

Lemma count_tokens_app_sep b s sep t :
  isspace sep = true ->
  count_tokens b (s +:+ String sep t)
  = count_tokens b s + count_tokens false t.
Proof.
  intros Hsep. revert b. induction s as [|c s IH]; intros b; simpl.
  - rewrite Hsep. reflexivity.
  - destruct (isspace c); [apply IH|].
    destruct b; rewrite IH; reflexivity.
Qed.

Lemma count_tokens_join (parts : list string) :
  count_tokens false (join " " parts)
  = list_sum (map (count_tokens false) parts).
Proof.
  induction parts as [|p rest IH]; [reflexivity|].
  destruct rest as [|q rest].
  - simpl. lia.
  - change (join " " (p :: q :: rest))
      with (p +:+ String " "%char (join " " (q :: rest))).
    rewrite count_tokens_app_sep by reflexivity.
    rewrite IH. reflexivity.
Qed.

(** *** Matches of [\b p \b] *)

Lemma match_literal_Some p s rest :
  match_literal p s = Some rest -> s = p +:+ rest.
Proof.
  revert s. induction p as [|a p IH]; intros s; simpl.
  - intros [= ->]. reflexivity.
  - destruct s as [|b s]; [discriminate|].
    destruct (ascii_dec a b) as [->|]; [|discriminate].
    intros H. rewrite (IH _ H). reflexivity.
Qed.









Lemma match_literal_prefix q : forall p rest r,
  match_literal p (q +:+ rest) = Some r ->
  String.length q <= String.length p ->
  is_Some (match_literal q p).
Proof.
  induction q as [|a q IH]; intros p rest r H Hlen; simpl; [eauto|].
  destruct p as [|b p]; [simpl in Hlen; lia|].
  simpl in H. destruct (ascii_dec b a) as [->|]; [|discriminate].
  destruct (ascii_dec a a); [|congruence].
  apply (IH p rest r H). simpl in Hlen. lia.
Qed.

Lemma gap_free_quiet p q : forall c rest,
  gap_free p c q = true ->
  String.length q <= String.length p ->
  quiet p (String.length q) (Some c) (q +:+ rest).
Proof.
  induction q as [|a q IH]; intros c rest Hg Hlen; simpl; [exact I|].
  simpl in Hg. apply andb_true_iff in Hg as [Hhere Hrest].
  split.
  - unfold match_here. simpl head_char.
    destruct (at_boundary (Some c) (Some a)); [|reflexivity].
    simpl in Hhere. apply negb_true_iff, bool_decide_eq_false in Hhere.
    destruct (match_literal p (String a q +:+ rest)) as [r|] eqn:E;
      [|reflexivity].
    exfalso. apply Hhere. apply (match_literal_prefix _ _ _ _ E Hlen).
  - apply IH; [exact Hrest | simpl in Hlen; lia].
Qed.

(** Behind a match, no other match begins inside the matched text. *)
Lemma match_gap p prev c s :
  no_overlap p = true ->
  match_here p prev (String c s) = true ->
  quiet p (String.length p - 1) (Some c) s.
Proof.
  intros Hp Hm. destruct p as [|a p]; [exact I|].
  unfold match_here in Hm. apply andb_true_iff in Hm as [_ Hm].
  destruct (match_literal (String a p) (String c s)) as [r|] eqn:E;
    [|discriminate].
  simpl in E. destruct (ascii_dec a c) as [->|]; [|discriminate].
  apply match_literal_Some in E. subst s.
  replace (String.length (String c p) - 1) with (String.length p)
    by (simpl; lia).
  apply gap_free_quiet; [exact Hp | simpl; lia].
Qed.

Lemma scan_occurrences p s :
  no_overlap p = true ->
  forall skip prev, quiet p skip prev s ->
                    scan p skip prev s = occurrences p prev s.
Proof.
  intros Hp. induction s as [|c s IH]; intros skip prev Hq.
  - destruct skip as [|k]; simpl in *.
    + lia.
    + destruct Hq as [-> _]. reflexivity.
  - destruct skip as [|k]; simpl in *.
    + destruct (match_here p prev (String c s)) eqn:E.
      * rewrite (IH _ _ (match_gap _ _ _ _ Hp E)). reflexivity.
      * rewrite (IH 0 (Some c) I). reflexivity.
    + destruct Hq as [-> Hq]. apply IH, Hq.
Qed.

(** For a pattern without such overlaps, [findall] counts every position
    where the pattern stands between word boundaries. *)
Lemma findall_count_occurrences p s :
  no_overlap p = true -> findall_count p s = occurrences p None s.
Proof. intros Hp. apply (scan_occurrences p s Hp 0 None I). Qed.

Example split_ex : split "  Hello,  world " = ["Hello,"; "world"].
Proof. reflexivity. Qed.

Example findall_sokind : findall_count "so" "sokind of so, so" = 2.
Proof. reflexivity. Qed.

Example findall_kind_of : findall_count "kind of" "sokind of so" = 0.
Proof. reflexivity. Qed.

Example findall_hyphen : findall_count "uh" "uh-huh" = 1.
Proof. reflexivity. Qed.

End PyStrFacts.

(* ===================================================================== *)
(** ** Facts about the numbers *)
(* ===================================================================== *)

Module PyNumFacts.

Import PyNum.
Local Open Scope Q_scope.

Lemma Qltb_lt x y : Qltb x y = true <-> x < y.
Proof.
  unfold Qltb. rewrite negb_true_iff. split.
  - intros H. apply Qnot_le_lt. intros Hle.
    apply Qle_bool_iff in Hle. congruence.
  - intros H. destruct (Qle_bool y x) eqn:E; [|reflexivity].
    apply Qle_bool_iff in E. apply Qlt_not_le in H. contradiction.
Qed.

Lemma Qleb_le x y : Qleb x y = true <-> x <= y.
Proof. unfold Qleb. apply Qle_bool_iff. Qed.

Lemma Qltb_ge x y : Qltb x y = false <-> y <= x.
Proof. unfold Qltb. rewrite negb_false_iff. apply Qle_bool_iff. Qed.

Lemma Qleb_gt x y : Qleb x y = false <-> y < x.
Proof.
  unfold Qleb. split.
  - intros H. apply Qnot_le_lt. intros Hle.
    apply Qle_bool_iff in Hle. congruence.
  - intros H. destruct (Qle_bool x y) eqn:E; [|reflexivity].
    apply Qle_bool_iff in E. apply Qlt_not_le in H. contradiction.
Qed.

Lemma round_half_even_proper x y :
  x == y -> round_half_even x = round_half_even y.
Proof.
  intros H. unfold round_half_even.
  assert (Hf : Qfloor x = Qfloor y) by (apply Qfloor_comp; exact H).
  rewrite Hf.
  assert (Hc : Qcompare (x - inject_Z (Qfloor y)) (1#2)
               = Qcompare (y - inject_Z (Qfloor y)) (1#2)).
  { apply Qcompare_comp; [rewrite H; reflexivity | reflexivity]. }
  rewrite Hc. reflexivity.
Qed.

(** Equal numbers round to the same term. *)
Lemma py_round_proper x y n : x == y -> py_round x n = py_round y n.
Proof.
  intros H. unfold py_round. apply Qred_complete.
  rewrite (round_half_even_proper (x * pow10 n) (y * pow10 n));
    [reflexivity|].
  rewrite H. reflexivity.
Qed.

Lemma round_half_even_Z k : round_half_even (inject_Z k) = k.
Proof.
  unfold round_half_even. rewrite Qfloor_Z.
  assert (H : Qcompare (inject_Z k - inject_Z k) (1#2) = Lt).
  { apply Qlt_alt. unfold Qminus. rewrite Qplus_opp_r. reflexivity. }
  rewrite H. reflexivity.
Qed.

Lemma round_half_even_near x :
  Qabs (x - inject_Z (round_half_even x)) <= 1 # 2.
Proof.
  unfold round_half_even. cbv zeta.
  pose proof (Qfloor_le x) as Hl. pose proof (Qlt_floor x) as Hu.
  rewrite inject_Z_plus in Hu.
  destruct (Qcompare (x - inject_Z (Qfloor x)) (1#2)) eqn:E;
    [apply Qeq_alt in E; destruct (Z.even (Qfloor x))
    |apply Qlt_alt in E | apply Qgt_alt in E];
    rewrite ?inject_Z_plus; change (inject_Z 1) with 1 in *;
    revert Hl Hu E; generalize (inject_Z (Qfloor x)); intros f Hl Hu E;
    apply Qabs_Qle_condition; split; lra.
Qed.

Lemma pow10_pos n : 0 < pow10 n.
Proof.
  unfold pow10. change 0 with (inject_Z 0). rewrite <- Zlt_Qlt.
  apply Z.pow_pos_nonneg; lia.
Qed.

(** [round(x, n)] is a multiple of 10^-n, at most half a unit of the
    last place away from [x]. *)
Lemma py_round_spec x n :
  py_round x n == inject_Z (round_half_even (x * pow10 n)) / pow10 n /\
  Qabs (x - py_round x n) <= (1 # 2) / pow10 n.
Proof.
  pose proof (pow10_pos n) as Hp.
  assert (E : py_round x n
              == inject_Z (round_half_even (x * pow10 n)) / pow10 n).
  { unfold py_round. apply Qred_correct. }
  split; [exact E|]. rewrite E.
  pose proof (round_half_even_near (x * pow10 n)) as Hn.
  set (k := inject_Z (round_half_even (x * pow10 n))) in *.
  apply Qabs_Qle_condition in Hn as [H1 H2].
  assert (Hx : x - k / pow10 n == (x * pow10 n - k) / pow10 n)
    by (field; lra).
  rewrite Hx. apply Qabs_Qle_condition. split.
  - apply Qle_shift_div_l; [exact Hp|].
    assert (Hq : - ((1 # 2) / pow10 n) * pow10 n == - (1 # 2))
      by (field; lra).
    rewrite Hq. exact H1.
  - apply Qle_shift_div_r; [exact Hp|].
    assert (Hq : (1 # 2) / pow10 n * pow10 n == (1 # 2)) by (field; lra).
    rewrite Hq. exact H2.
Qed.


Lemma py_round_zero n x : x == 0 -> py_round x n = 0.
Proof.
  intros H. rewrite (py_round_proper x 0 n H).
  unfold py_round.
  transitivity (Qred 0); [|reflexivity]. apply Qred_complete.
  rewrite (round_half_even_proper (0 * pow10 n) (inject_Z 0)) by ring.
  rewrite round_half_even_Z. unfold Qdiv. ring.
Qed.


Example py_round_tie_down : py_round (1 # 4) 1 = 1 # 5.
Proof. reflexivity. Qed.

Example py_round_tie_up : py_round (7 # 20) 1 = 2 # 5.
Proof. reflexivity. Qed.

Example py_round_negative : py_round (- (1 # 3)) 3 = - (333 # 1000).
Proof. reflexivity. Qed.

End PyNumFacts.

(* ===================================================================== *)
(** ** Speech metrics: proofs *)
(* ===================================================================== *)

Module SpeechMetricsProofs.

Import PyStr PyNum SpeechMetrics PyStrSpec SpeechMetricsSpec.
Import PyStrFacts PyNumFacts.

Lemma count_words_tokens t : _count_words t = count_tokens false t.
Proof.
  unfold _count_words. case_decide as H.
  - symmetry. apply strip_empty_tokens, H.
  - apply split_length.
Qed.

(** The words of the joined text are the words of its parts. *)
Lemma count_words_join (texts : list string) :
  _count_words (join " " texts)
  = list_sum (map (fun t => length (split t)) texts).
Proof.
  rewrite count_words_tokens, count_tokens_join. f_equal.
  apply map_ext. intros t. symmetry. apply split_length.
Qed.

Lemma count_words_role r msgs :
  _count_words (role_text r msgs) = role_words r msgs.
Proof.
  unfold role_text, role_words. rewrite count_words_join, map_map.
  reflexivity.
Qed.

Lemma role_words_none r msgs :
  List.filter (has_role r) msgs = [] -> role_words r msgs = 0.
Proof. unfold role_words. intros ->. reflexivity. Qed.

Lemma FILLER_WORDS_list : FILLER_WORDS = list_to_set FILLER_LIST.
Proof.
  apply set_eq. intros x. unfold FILLER_WORDS, FILLER_LIST. set_solver.
Qed.

Lemma FILLER_LIST_NoDup : NoDup FILLER_LIST.
Proof. apply (bool_decide_eq_true_1 _). vm_compute. reflexivity. Qed.

Lemma elem_of_FILLER_WORDS f : f ∈ FILLER_WORDS <-> f ∈ FILLER_LIST.
Proof. rewrite FILLER_WORDS_list. apply elem_of_list_to_set. Qed.



Lemma count_fillers_lookup t f n :
  _count_fillers t !! f = Some n
  <-> f ∈ FILLER_WORDS /\ n = findall_count f (lower t).
Proof.
  unfold _count_fillers. rewrite lookup_set_to_map.
  - split.
    + intros (y & Hy & [= -> ->]). auto.
    + intros [Hf ->]. exists f. auto.
  - intros y y' _ _ H. exact H.
Qed.

Lemma sum_values_set_to_map (g : string -> nat) (X : gset string) :
  sum_values (set_to_map (fun f => (f, g f)) X)
  = sum_list_with g (elements X).
Proof.
  unfold sum_values, set_to_map. rewrite map_fold_foldr.
  set (l := (fun f => (f, g f)) <$> elements X).
  assert (Hnd : NoDup l.*1).
  { assert (E : l.*1 = elements X).
    { unfold l. induction (elements X) as [|x xs IH]; [done|].
      rewrite !fmap_cons. simpl. f_equal. exact IH. }
    rewrite E. apply NoDup_elements. }
  rewrite (foldr_permutation (=)
             (uncurry (fun (_ : string) v acc => acc + v)) 0 _ l).
  - unfold l. clear. induction (elements X) as [|x xs IH]; [done|].
    rewrite fmap_cons. cbn [foldr sum_list_with]. rewrite IH.
    simpl. lia.
  - intros j1 a1 j2 a2 b _ _ _. destruct a1, a2. simpl. lia.
  - apply map_to_list_to_map, Hnd.
Qed.

Lemma sum_values_count_fillers t :
  sum_values (_count_fillers t)
  = sum_list_with (fun f => findall_count f (lower t)) FILLER_LIST.
Proof.
  unfold _count_fillers.
  rewrite (sum_values_set_to_map (fun f => findall_count f (lower t))).
  rewrite FILLER_WORDS_list.
  rewrite (elements_list_to_set FILLER_LIST FILLER_LIST_NoDup).
  reflexivity.
Qed.



(** Past the first test of [analyze_speech_metrics]. *)
Lemma guard_false (t : Transcript) (d : Q) :
  default [] (messages t) <> [] -> (0 < d)%Q ->
  bool_decide (default [] (messages t) = []) || Qleb d 0 = false.
Proof.
  intros Hm Hd. rewrite bool_decide_eq_false_2 by exact Hm. simpl.
  apply Qleb_gt, Hd.
Qed.

Lemma minutes_pos d : (0 < d)%Q -> Qltb 0 (d / 60) = true.
Proof. intros H. apply Qltb_lt. apply Qlt_shift_div_l; lra. Qed.

(** The result past the first test, with the rates written out. *)
Lemma analyze_past_guard (t : Transcript) (d : Q) :
  default [] (messages t) <> [] -> (0 < d)%Q ->
  let msgs := default [] (messages t) in
  let u := role_words "user" msgs in
  let a := role_words "assistant" msgs in
  let r := analyze_speech_metrics t d in
  words_per_minute r = py_round (of_nat u / (d / 60)) 1 /\
  wpm_assessment r = _assess_wpm (words_per_minute r) /\
  total_user_words r = u /\
  total_assistant_words r = a /\
  total (filler_words r) = sum_values (_count_fillers (role_text "user" msgs)) /\
  per_minute (filler_words r)
  = py_round (of_nat (total (filler_words r)) / (d / 60)) 1 /\
  breakdown (filler_words r)
  = filter (fun kv => (0 < kv.2)%nat)
           (_count_fillers (role_text "user" msgs)) /\
  user_percent (talk_listen_ratio r)
  = (if (0 <? u + a)%nat
     then py_round (of_nat u / of_nat (u + a) * 100) 1 else 0%Q) /\
  prospect_percent (talk_listen_ratio r)
  = py_round (100 - user_percent (talk_listen_ratio r)) 1 /\
  assessment (talk_listen_ratio r)
  = _assess_talk_ratio (user_percent (talk_listen_ratio r)).
Proof.
  intros Hm Hd msgs u a r. subst r u a.
  unfold analyze_speech_metrics.
  rewrite (guard_false t d Hm Hd). cbv zeta.
  rewrite (minutes_pos d Hd).
  fold msgs. fold (role_text "user" msgs) (role_text "assistant" msgs).
  rewrite !count_words_role. repeat split; reflexivity.
Qed.

Local Open Scope Q_scope.


(** C4.  A transcript without utterances, and any transcript with a
    duration of zero or less, gives exactly the empty-metrics constant:
    every count and rate is zero, the filler breakdown is empty, both
    assessments are "no_data".  The function is total, so this is an
    ordinary result. *)
Theorem empty_metrics_when_no_data (t : Transcript) (d : Q) :
  default [] (messages t) = [] \/ d <= 0 ->
  analyze_speech_metrics t d = _empty_metrics /\
  _empty_metrics
  = {| words_per_minute := 0; wpm_assessment := "no_data";
       total_user_words := 0; total_assistant_words := 0;
       filler_words := {| total := 0; per_minute := 0; breakdown := ∅ |};
       talk_listen_ratio :=
         {| user_percent := 0; prospect_percent := 0;
            assessment := "no_data" |};
       longest_monologue_words := 0; questions_asked := 0;
       message_count := {| user := 0; assistant := 0 |} |}.
Proof.
  intros H. split; [|reflexivity].
  unfold analyze_speech_metrics.
  destruct H as [H|H].
  - rewrite H. reflexivity.
  - apply Qleb_le in H. rewrite H, orb_true_r. reflexivity.
Qed.

Lemma empty_metrics_when_no_data_witness :
  analyze_speech_metrics {| messages := Some [hello] |} 0 = _empty_metrics.
Proof.
  apply (empty_metrics_when_no_data {| messages := Some [hello] |} 0).
  right. unfold Qle. simpl. lia.
Defined.








(** C10.  A transcript with utterances but none of the user, over a
    positive duration, does not give the "no_data" result: the pace is 0
    and "too_slow", and with assistant words the user percentage is 0 and
    "too_quiet".  A "no_data" label appears only for an empty utterance
    list or a duration of zero or less. *)
Theorem no_user_utterances :
  (forall (t : Transcript) (d : Q),
     default [] (messages t) <> [] ->
     List.filter (has_role "user") (default [] (messages t)) = [] ->
     0 < d ->
     let r := analyze_speech_metrics t d in
     r <> _empty_metrics /\
     words_per_minute r = 0 /\
     wpm_assessment r = "too_slow" /\
     ((0 < total_assistant_words r)%nat ->
      user_percent (talk_listen_ratio r) = 0 /\
      assessment (talk_listen_ratio r) = "too_quiet")) /\
  (forall (t : Transcript) (d : Q),
     let r := analyze_speech_metrics t d in
     wpm_assessment r = "no_data" \/
     assessment (talk_listen_ratio r) = "no_data" ->
     default [] (messages t) = [] \/ d <= 0).
Proof.
  split.
  - intros t d Hm Hu Hd r.
    destruct (analyze_past_guard t d Hm Hd)
      as (Hw & Ha & _ & Hta & _ & _ & _ & Hp & _ & Hpa).
    fold r in Hw, Ha, Hta, Hp, Hpa.
    rewrite (role_words_none _ _ Hu) in Hw, Hp.
    assert (Hw0 : words_per_minute r = 0).
    { rewrite Hw. apply py_round_zero. unfold of_nat. simpl.
      unfold Qdiv. ring. }
    assert (Hslow : wpm_assessment r = "too_slow").
    { rewrite Ha, Hw0. reflexivity. }
    split; [|split; [exact Hw0|split; [exact Hslow|]]].
    + intros E. rewrite E in Hslow. discriminate.
    + intros Hpos. rewrite Hta in Hpos.
      assert (Hp0 : user_percent (talk_listen_ratio r) = 0).
      { rewrite Hp. destruct (0 <? _)%nat; [|reflexivity].
        apply py_round_zero. unfold of_nat at 1. simpl. unfold Qdiv. ring. }
      split; [exact Hp0|]. rewrite Hpa, Hp0. reflexivity.
  - intros t d r H.
    destruct (decide (default [] (messages t) = [])) as [Hm|Hm];
      [left; exact Hm|].
    destruct (Qlt_le_dec 0 d) as [Hd|Hd]; [|right; exact Hd].
    exfalso.
    destruct (analyze_past_guard t d Hm Hd)
      as (_ & Ha & _ & _ & _ & _ & _ & _ & _ & Hpa).
    fold r in Ha, Hpa. rewrite Ha, Hpa in H.
    unfold _assess_wpm, _assess_talk_ratio in H.
    destruct H as [H|H];
      repeat match type of H with
             | (if ?b then _ else _) = _ => destruct b
             end; discriminate.
Qed.

Lemma no_user_utterances_witness :
  words_per_minute (analyze_speech_metrics only_assistant 30) = 0 /\
  assessment (talk_listen_ratio (analyze_speech_metrics only_assistant 30))
  = "too_quiet".
Proof.
  assert (Hm : default [] (messages only_assistant) <> []) by discriminate.
  assert (Hu : List.filter (has_role "user")
                 (default [] (messages only_assistant)) = []) by reflexivity.
  assert (Hd : 0 < 30) by reflexivity.
  destruct (proj1 no_user_utterances only_assistant 30 Hm Hu Hd)
    as (_ & Hw & _ & Hq).
  split; [exact Hw|]. apply Hq. vm_compute. lia.
Defined.

End SpeechMetricsProofs.

(* ===================================================================== *)
(** ** Emotion aggregation: proofs *)
(* ===================================================================== *)

Module EmotionProofs.

Import PyNum EmotionAnalysis EmotionSpec PyNumFacts.

Lemma present_scores_nil emo related :
  present_scores emo related = []
  <-> existsb (fun e => bool_decide (is_Some (emo !! e))) related = false.
Proof.
  unfold present_scores. induction related as [|e rel IH]; simpl; [tauto|].
  destruct (emo !! e) as [q|] eqn:E; simpl.
  - split; discriminate.
  - exact IH.
Qed.

Lemma samples_filter related readings :
  concat (map (sample related) readings)
  = map (reading_mean related) (List.filter (has_sample related) readings).
Proof.
  induction readings as [|r rs IH]; [reflexivity|].
  simpl. rewrite IH. unfold sample, has_sample.
  destruct (present_scores (get_emotions r) related) eqn:E.
  - apply present_scores_nil in E. rewrite E. reflexivity.
  - assert (H : existsb (fun e => bool_decide (is_Some (get_emotions r !! e)))
                  related = true).
    { destruct (existsb _ related) eqn:X; [reflexivity|].
      apply present_scores_nil in X. congruence. }
    rewrite H. simpl. unfold reading_mean. rewrite E. reflexivity.
Qed.

Ltac visit_dimension :=
  intros; unfold visit, sample; cbn [fst snd];
  match goal with
  | |- context [present_scores ?e ?l] => destruct (present_scores e l)
  end;
  [rewrite app_nil_r; reflexivity
  |match goal with |- context [mean ?s] => generalize (mean s) end;
   intros; reflexivity].

Lemma visit_confidence r l1 l2 l3 l4 l5 :
  visit r (scores_dict l1 l2 l3 l4 l5) ("Confidence", labels "Confidence")
  = scores_dict (l1 ++ sample (labels "Confidence") r) l2 l3 l4 l5.
Proof. visit_dimension. Qed.

Lemma visit_enthusiasm r l1 l2 l3 l4 l5 :
  visit r (scores_dict l1 l2 l3 l4 l5) ("Enthusiasm", labels "Enthusiasm")
  = scores_dict l1 (l2 ++ sample (labels "Enthusiasm") r) l3 l4 l5.
Proof. visit_dimension. Qed.

Lemma visit_hesitation r l1 l2 l3 l4 l5 :
  visit r (scores_dict l1 l2 l3 l4 l5) ("Hesitation", labels "Hesitation")
  = scores_dict l1 l2 (l3 ++ sample (labels "Hesitation") r) l4 l5.
Proof. visit_dimension. Qed.

Lemma visit_empathy r l1 l2 l3 l4 l5 :
  visit r (scores_dict l1 l2 l3 l4 l5) ("Empathy", labels "Empathy")
  = scores_dict l1 l2 l3 (l4 ++ sample (labels "Empathy") r) l5.
Proof. visit_dimension. Qed.

Lemma visit_frustration r l1 l2 l3 l4 l5 :
  visit r (scores_dict l1 l2 l3 l4 l5) ("Frustration", labels "Frustration")
  = scores_dict l1 l2 l3 l4 (l5 ++ sample (labels "Frustration") r).
Proof. visit_dimension. Qed.

Lemma inner_loop r l1 l2 l3 l4 l5 :
  fold_left (visit r) COACHING_EMOTIONS (scores_dict l1 l2 l3 l4 l5)
  = scores_dict (l1 ++ sample (labels "Confidence") r)
                (l2 ++ sample (labels "Enthusiasm") r)
                (l3 ++ sample (labels "Hesitation") r)
                (l4 ++ sample (labels "Empathy") r)
                (l5 ++ sample (labels "Frustration") r).
Proof.
  change COACHING_EMOTIONS
    with [ ("Confidence", labels "Confidence");
           ("Enthusiasm", labels "Enthusiasm");
           ("Hesitation", labels "Hesitation");
           ("Empathy", labels "Empathy");
           ("Frustration", labels "Frustration") ].
  cbn [fold_left].
  rewrite visit_confidence, visit_enthusiasm, visit_hesitation,
    visit_empathy, visit_frustration.
  reflexivity.
Qed.

Lemma outer_loop readings : forall l1 l2 l3 l4 l5,
  fold_left (fun ds r => fold_left (visit r) COACHING_EMOTIONS ds)
            readings (scores_dict l1 l2 l3 l4 l5)
  = scores_dict
      (l1 ++ concat (map (sample (labels "Confidence")) readings))
      (l2 ++ concat (map (sample (labels "Enthusiasm")) readings))
      (l3 ++ concat (map (sample (labels "Hesitation")) readings))
      (l4 ++ concat (map (sample (labels "Empathy")) readings))
      (l5 ++ concat (map (sample (labels "Frustration")) readings)).
Proof.
  induction readings as [|r rs IH]; intros; cbn [fold_left map concat].
  - rewrite !app_nil_r. reflexivity.
  - rewrite inner_loop, IH, <- !app_assoc. reflexivity.
Qed.

(** The first loop gathers, per dimension, the averages of the readings
    that have a sample, in the order of the readings. *)
Lemma collect_scores_spec readings :
  collect_scores readings
  = map (fun dr =>
           (dr.1, map (reading_mean dr.2)
                      (List.filter (has_sample dr.2) readings)))
        COACHING_EMOTIONS.
Proof.
  unfold collect_scores.
  change (map (fun d : string * list string => (d.1, @nil Q)) COACHING_EMOTIONS)
    with (scores_dict [] [] [] [] []).
  change (fun (dimension_scores : list (string * list Q)) (reading : Reading) =>
            let emo := get_emotions reading in
            fold_left
              (fun ds (dr : string * list string) =>
                 let scores := present_scores emo dr.2 in
                 match scores with
                 | [] => ds
                 | _ => dict_append dr.1 (mean scores) ds
                 end) COACHING_EMOTIONS dimension_scores)
    with (fun ds r => fold_left (visit r) COACHING_EMOTIONS ds).
  rewrite outer_loop. cbn [app]. rewrite !samples_filter. reflexivity.
Qed.

Lemma compute_averages_spec readings :
  compute_averages (collect_scores readings)
  = map (fun dr => (dr.1, overall_average dr.2 readings)) COACHING_EMOTIONS.
Proof.
  rewrite collect_scores_spec. unfold compute_averages.
  rewrite map_map. apply map_ext. intros [dim rel]. cbn [fst snd].
  unfold overall_average.
  destruct (List.filter (has_sample rel) readings); reflexivity.
Qed.

(** *** The stable descending sort *)

Section Sorting.

Context {A : Type} (key : A -> Q).

Lemma insert_desc_perm x l : Permutation (insert_desc key x l) (x :: l).
Proof.
  induction l as [|y l IH]; simpl; [reflexivity|].
  destruct (Qltb (key x) (key y)); [|reflexivity].
  rewrite IH. apply perm_swap.
Qed.

Lemma sorted_desc_perm l : Permutation (sorted_desc key l) l.
Proof.
  induction l as [|x l IH]; simpl; [reflexivity|].
  rewrite insert_desc_perm, IH. reflexivity.
Qed.

Lemma insert_desc_hd x y l :
  desc key y x -> HdRel (desc key) y l ->
  HdRel (desc key) y (insert_desc key x l).
Proof.
  intros Hyx Hl. destruct l as [|z l]; simpl; [constructor; exact Hyx|].
  destruct (Qltb (key x) (key z)); constructor.
  - inversion Hl; assumption.
  - exact Hyx.
Qed.

Lemma insert_desc_sorted x l :
  Sorted (desc key) l -> Sorted (desc key) (insert_desc key x l).
Proof.
  induction 1 as [|y l Hs IH Hhd]; simpl; [repeat constructor|].
  destruct (Qltb (key x) (key y)) eqn:E.
  - apply Qltb_lt in E. constructor; [exact IH|].
    apply insert_desc_hd; [|exact Hhd]. unfold desc. lra.
  - apply Qltb_ge in E. constructor.
    + constructor; assumption.
    + constructor. exact E.
Qed.

Lemma sorted_desc_sorted l : StronglySorted (desc key) (sorted_desc key l).
Proof.
  apply Sorted_StronglySorted.
  - intros x y z Hxy Hyz. unfold desc in *. lra.
  - induction l as [|x l IH]; simpl; [constructor|].
    apply insert_desc_sorted, IH.
Qed.




End Sorting.

Lemma timeline_point_spec i r :
  timeline_point i r
  = {| point_index := i; point_timestamp := timestamp r;
       point_scores :=
         map (fun dr => (dr.1, reading_score dr.2 r)) COACHING_EMOTIONS |}.
Proof.
  unfold timeline_point. f_equal. apply map_ext. intros [dim rel].
  cbn [fst snd]. unfold reading_score, has_sample, reading_mean.
  destruct (present_scores (get_emotions r) rel) eqn:E.
  - apply present_scores_nil in E. rewrite E. reflexivity.
  - destruct (existsb _ rel) eqn:X; [reflexivity|].
    apply present_scores_nil in X. congruence.
Qed.

(** The summary when a user reading exists. *)
Lemma summarize_nonempty (e : EmotionData) :
  let user_readings := List.filter is_user (default [] (prosody_scores e)) in
  user_readings <> [] ->
  summarize_emotions e
  = let averages := compute_averages (collect_scores user_readings) in
    {| dimension_averages := averages;
       dominant_emotions :=
         map (fun ds => {| dimension := ds.1; score := ds.2 |})
             (firstn 3 (sorted_desc snd averages));
       timeline := imap timeline_point user_readings;
       total_readings := length user_readings |}.
Proof.
  intros user_readings H. unfold summarize_emotions.
  destruct (default [] (prosody_scores e)) as [|p ps] eqn:Ep.
  - exfalso. apply H. reflexivity.
  - fold is_user. change (List.filter is_user (p :: ps)) with user_readings.
    destruct user_readings; [congruence | reflexivity].
Qed.

Lemma summarize_empty (e : EmotionData) :
  List.filter is_user (default [] (prosody_scores e)) = [] ->
  summarize_emotions e = _empty_summary.
Proof.
  intros H. unfold summarize_emotions.
  destruct (default [] (prosody_scores e)) as [|p ps]; [reflexivity|].
  fold is_user. rewrite H. reflexivity.
Qed.

Local Open Scope Q_scope.






End EmotionProofs.

(* ===================================================================== *)
(** ** Report generation: proofs *)
(* ===================================================================== *)

Module ReportProofs.

Import Store CoachingReport ReportSpec.

Lemma save_end (c : CallSession) (db : gmap uuid CallSession) :
  bind (add c) (fun _ => commit) {| rows := db; pending := ∅ |}
  = (inl tt, {| rows := <[id c := c]> db; pending := ∅ |}).
Proof.
  unfold bind, add, commit. cbn [pending rows].
  rewrite insert_empty, <- insert_union_singleton_l. reflexivity.
Qed.

Lemma save_then {A} (c : CallSession) (k : M A) (db : gmap uuid CallSession) :
  bind (add c) (fun _ => bind commit (fun _ => k))
       {| rows := db; pending := ∅ |}
  = k {| rows := <[id c := c]> db; pending := ∅ |}.
Proof.
  unfold bind, add, commit. cbn [pending rows].
  rewrite insert_empty, <- insert_union_singleton_l. reflexivity.
Qed.

Lemma get_then {A} (k : uuid) (f : option CallSession -> M A)
      (db : gmap uuid CallSession) :
  bind (get k) f {| rows := db; pending := ∅ |}
  = f (db !! k) {| rows := db; pending := ∅ |}.
Proof.
  unfold bind, get. cbn [pending rows]. rewrite lookup_empty. reflexivity.
Qed.

Lemma rollback_then {A} (k : M A) (db pend : gmap uuid CallSession) :
  bind rollback (fun _ => k) {| rows := db; pending := pend |}
  = k {| rows := db; pending := ∅ |}.
Proof. reflexivity. Qed.

Lemma lift_then {A B} (r : A + exn) (k : A -> M B) s :
  bind (lift r) k s
  = match r with inl a => k a s | inr e => (inr e, s) end.
Proof. reflexivity. Qed.

Lemma raise_then {A B} (e : exn) (k : A -> M B) s :
  bind (raise e) k s = (inr e, s).
Proof. reflexivity. Qed.

Lemma ret_then {A B} (a : A) (k : A -> M B) s : bind (ret a) k s = k a s.
Proof. reflexivity. Qed.



Lemma merged_lookup call tr dur report :
  merged call tr dur report !! "speech_metrics"
  = Some (ASpeech (speech_of tr dur)) /\
  merged call tr dur report !! "emotion_summary"
  = Some (AEmotion (emotion_of call)) /\
  (forall k, k <> "speech_metrics" -> k <> "emotion_summary" ->
             merged call tr dur report !! k = report !! k).
Proof.
  unfold merged. repeat split.
  - rewrite lookup_insert_ne by discriminate. apply lookup_insert_eq.
  - apply lookup_insert_eq.
  - intros k H1 H2. rewrite !lookup_insert_ne by congruence. reflexivity.
Qed.

Section Job.

Variable COACHING_SYSTEM_PROMPT : string.
Variable _build_analysis_prompt :
  SpeechMetrics.Transcript -> SpeechMetrics.Metrics ->
  EmotionAnalysis.EmotionSummary -> string -> string.
Variable create_completion : string -> string -> list (option string) + exn.
Variable json_loads : string -> option json.

Local Abbreviation job :=
  (run_job COACHING_SYSTEM_PROMPT _build_analysis_prompt create_completion
           json_loads).
Local Abbreviation failed :=
  (analysis_failed).
Local Abbreviation body :=
  (analysis_body COACHING_SYSTEM_PROMPT _build_analysis_prompt
                 create_completion json_loads).
Local Abbreviation report_of :=
  (model_report COACHING_SYSTEM_PROMPT _build_analysis_prompt
                create_completion json_loads).

(** The handler, run on a session whose row exists. *)
Lemma analysis_failed_run (k : uuid) (c : CallSession)
      (db pend : gmap uuid CallSession) :
  db !! k = Some c -> id c = k ->
  failed k {| rows := db; pending := pend |}
  = (inl tt,
     {| rows := <[k := set_analysis_results ANALYSIS_FAILED
                          (set_status "error" c)]> db;
        pending := ∅ |}).
Proof.
  intros Hc Hk. unfold analysis_failed.
  rewrite rollback_then, get_then, Hc, save_end.
  cbn [id set_analysis_results set_status]. rewrite Hk. reflexivity.
Qed.

(** The protected block, run right after the check: it ends well with
    the report stored, or it raises with the checkpoint stored. *)
Lemma analysis_body_run (call : CallSession) tr dur
      (db : gmap uuid CallSession) :
  match report_of call tr dur with
  | Some report =>
      body call tr dur {| rows := db; pending := ∅ |}
      = (inl tt, {| rows := <[id call := done_row call tr dur report]>
                              (<[id call := set_status "analyzing" call]> db);
                    pending := ∅ |})
  | None =>
      exists e,
        body call tr dur {| rows := db; pending := ∅ |}
        = (inr e, {| rows := <[id call := set_status "analyzing" call]> db;
                     pending := ∅ |})
  end.
Proof.
  unfold analysis_body.
  rewrite (save_then (set_status "analyzing" call)).
  cbn [id set_status emotion_data persona].
  unfold model_report, speech_of, emotion_of.
  rewrite lift_then.
  destruct (create_completion _ _) as [[|content rest]|err];
    [eexists; reflexivity| |eexists; reflexivity].
  rewrite ret_then.
  assert (Hfin : forall j,
    bind (lift (unpack j))
      (fun report =>
         bind (add (set_status "done"
                 (set_analysis_results
                    (<["emotion_summary" :=
                         AEmotion (EmotionAnalysis.summarize_emotions
                           (default {| EmotionAnalysis.prosody_scores := None |}
                                    (emotion_data call)))]>
                       (<["speech_metrics" :=
                            ASpeech (SpeechMetrics.analyze_speech_metrics tr dur)]>
                          report))
                    (set_status "analyzing" call))))
              (fun _ => commit))
      {| rows := <[id call := set_status "analyzing" call]> db; pending := ∅ |}
    = match unpack j with
      | inl report =>
          (inl tt, {| rows := <[id call := done_row call tr dur report]>
                                (<[id call := set_status "analyzing" call]> db);
                      pending := ∅ |})
      | inr e => (inr e, {| rows := <[id call := set_status "analyzing" call]> db;
                            pending := ∅ |})
      end).
  { intros j. rewrite lift_then. destruct (unpack j) as [report|e]; [|reflexivity].
    rewrite save_end. reflexivity. }
  destruct content as [[|a t]|].
  - rewrite ret_then. rewrite Hfin. reflexivity.
  - destruct (json_loads (String a t)) as [j|].
    + rewrite ret_then, Hfin.
      destruct j; cbn [unpack]; first [reflexivity | eexists; reflexivity].
    + rewrite raise_then. eexists; reflexivity.
  - rewrite ret_then. rewrite Hfin. reflexivity.
Qed.

(** Every run of the job on a stored session, in one equation. *)
Lemma run_job_cases (db : gmap uuid CallSession) (call : CallSession) :
  db !! id call = Some call ->
  job (id call) db
  = (inl tt,
     <[id call :=
         match transcript call, duration_seconds call with
         | Some tr, Some dur =>
             if not_transcript (transcript call)
                || not_duration (duration_seconds call)
             then missing_row call
             else match report_of call tr dur with
                  | Some report => done_row call tr dur report
                  | None => failed_row call
                  end
         | _, _ => missing_row call
         end]> db).
Proof.
  intros Hdb. unfold run_job, generate_coaching_report, open_session.
  rewrite get_then, Hdb.
  pose proof (save_end (set_analysis_results MISSING_DATA
                          (set_status "error" call)) db) as Hmiss.
  cbn [id set_analysis_results set_status] in Hmiss.
  destruct (transcript call) as [tr|] eqn:Et;
    destruct (duration_seconds call) as [dur|] eqn:Ed;
    cbn [not_transcript not_duration orb];
    rewrite ?orb_true_r; try (rewrite Hmiss; reflexivity).
  destruct (_ || Qeq_bool dur 0) eqn:G; [rewrite Hmiss; reflexivity|].
  clear Hmiss.
  assert (Hrow : (<[id call := set_status "analyzing" call]> db) !! id call
                 = Some (set_status "analyzing" call))
    by apply lookup_insert_eq.
  unfold try_except.
  pose proof (analysis_body_run call tr dur db) as Hbody.
  destruct (report_of call tr dur) as [report|].
  - rewrite Hbody. cbn [fst snd rows]. rewrite insert_insert_eq. reflexivity.
  - destruct Hbody as [e ->].
    rewrite (analysis_failed_run _ _ _ _ Hrow eq_refl).
    cbn [fst snd rows]. rewrite insert_insert_eq. reflexivity.
Qed.

(** The handler itself raises nothing, whatever it finds. *)
Lemma analysis_failed_returns (k : uuid) (db pend : gmap uuid CallSession) :
  (failed k {| rows := db; pending := pend |}).1 = inl tt.
Proof.
  unfold analysis_failed. rewrite rollback_then, get_then.
  destruct (db !! k) as [c|]; [|reflexivity].
  rewrite save_end. reflexivity.
Qed.

(** Whatever the table holds and whatever the outside world does, the
    job returns; nothing is raised to the worker. *)
Lemma job_never_raises (k : uuid) (db : gmap uuid CallSession) :
  (job k db).1 = inl tt.
Proof.
  unfold run_job, generate_coaching_report, open_session. cbn [fst].
  rewrite get_then.
  destruct (db !! k) as [call|]; [|reflexivity].
  destruct (not_transcript (transcript call)
            || not_duration (duration_seconds call)).
  - rewrite save_end. reflexivity.
  - destruct (transcript call) as [tr|]; [|reflexivity].
    destruct (duration_seconds call) as [dur|]; [|reflexivity].
    unfold try_except.
    destruct (body call tr dur _) as [[[]|e] [db' pend']]; [reflexivity|].
    apply analysis_failed_returns.
Qed.



End Job.




End ReportProofs.

(* ===================================================================== *)
(** ** The analysis trigger: proofs *)
(* ===================================================================== *)

Module CallsProofs.

Import Store Calls CallsSpec.

(** C3.  For a stored session the trigger schedules the job only when
    the status is "completed" or "error"; with any other status it
    answers with an error and schedules nothing; for the owner of a
    session in "completed" or in "error" (a retry) it accepts and
    schedules the job. *)
Theorem trigger_precondition (db : gmap uuid CallSession) (current_user : User)
        (call_id : uuid) (tasks : list Task) (call : CallSession) :
  db !! call_id = Some call ->
  let out := analyze_call_session db current_user call_id tasks in
  (out.2 <> tasks -> status call = "completed" \/ status call = "error") /\
  (status call <> "completed" -> status call <> "error" ->
   rejected out.1 /\ out.2 = tasks) /\
  (owner_id call = user_id current_user ->
   status call = "completed" \/ status call = "error" ->
   out.1 = inl "Analysis started" /\ invoked call tasks out.2).
Proof.
  intros Hdb out. subst out. unfold analyze_call_session. rewrite Hdb.
  destruct (bool_decide (owner_id call = user_id current_user)) eqn:Eo;
    cbn [negb].
  - destruct (bool_decide (status call = "completed")) eqn:Ec;
      destruct (bool_decide (status call = "error")) eqn:Ee;
      cbn [orb negb fst snd];
      try apply bool_decide_eq_true in Ec; try apply bool_decide_eq_true in Ee;
      try apply bool_decide_eq_false in Ec; try apply bool_decide_eq_false in Ee;
      repeat split; unfold rejected, invoked; intros;
        try tauto; try congruence; eauto.
  - apply bool_decide_eq_false in Eo. cbn [fst snd].
    repeat split; unfold rejected; intros; try tauto; try congruence; eauto.
Qed.

Lemma trigger_precondition_witness :
  analyze_call_session (with_status "error") owner 7%N []
  = (inl "Analysis started", [GenerateCoachingReport 7%N]) /\
  (analyze_call_session (with_status "analyzing") owner 7%N []).2 = [].
Proof.
  split.
  - destruct (trigger_precondition (with_status "error") owner 7%N []
                (set_status "error" (ReportSpec.sample_call 120)))
      as (_ & _ & H); [apply lookup_singleton_eq|].
    destruct H as [H1 H2]; [reflexivity | right; reflexivity |].
    unfold invoked in H2.
    destruct (analyze_call_session _ _ _ _) as [a b].
    cbn [fst snd] in *. rewrite H1, H2. reflexivity.
  - destruct (trigger_precondition (with_status "analyzing") owner 7%N []
                (set_status "analyzing" (ReportSpec.sample_call 120)))
      as (_ & H & _); [apply lookup_singleton_eq|].
    apply H; discriminate.
Defined.

End CallsProofs.

(* ===================================================================== *)
(** ** Rounding: bounds *)
(* ===================================================================== *)

Module PyNumBounds.

Import PyNum PyNumFacts.
Local Open Scope Q_scope.

Lemma round_half_even_ge (k : Z) (x : Q) :
  inject_Z k <= x -> (k <= round_half_even x)%Z.
Proof.
  intros H.
  assert (Hf : (k <= Qfloor x)%Z).
  { rewrite <- (Qfloor_Z k). apply Qfloor_resp_le, H. }
  unfold round_half_even. cbv zeta.
  destruct (Qcompare _ _); [destruct (Z.even _)| |]; lia.
Qed.

Lemma round_half_even_le (k : Z) (x : Q) :
  x <= inject_Z k -> (round_half_even x <= k)%Z.
Proof.
  intros H. destruct (Qlt_le_dec x (inject_Z k)) as [Hlt|Hge].
  - assert (Hf : (Qfloor x < k)%Z).
    { apply Z.lt_nge. intros Hk. rewrite Zle_Qle in Hk.
      pose proof (Qfloor_le x). lra. }
    unfold round_half_even. cbv zeta.
    destruct (Qcompare _ _); [destruct (Z.even _)| |]; lia.
  - rewrite (round_half_even_proper x (inject_Z k)) by lra.
    rewrite round_half_even_Z. lia.
Qed.

(** Rounding keeps a value on its side of a multiple of 10^-n. *)
Lemma py_round_ge (k : Z) (x : Q) (n : nat) :
  inject_Z k / pow10 n <= x -> inject_Z k / pow10 n <= py_round x n.
Proof.
  intros H. pose proof (pow10_pos n) as Hp.
  destruct (py_round_spec x n) as [E _]. rewrite E.
  apply Qle_shift_div_l; [exact Hp|].
  assert (Hq : inject_Z k / pow10 n * pow10 n == inject_Z k) by (field; lra).
  rewrite Hq. rewrite <- Zle_Qle. apply round_half_even_ge.
  rewrite <- Hq. apply Qmult_le_compat_r; [exact H | lra].
Qed.

Lemma py_round_le (k : Z) (x : Q) (n : nat) :
  x <= inject_Z k / pow10 n -> py_round x n <= inject_Z k / pow10 n.
Proof.
  intros H. pose proof (pow10_pos n) as Hp.
  destruct (py_round_spec x n) as [E _]. rewrite E.
  apply Qle_shift_div_r; [exact Hp|].
  assert (Hq : inject_Z k / pow10 n * pow10 n == inject_Z k) by (field; lra).
  rewrite Hq. rewrite <- Zle_Qle. apply round_half_even_le.
  rewrite <- Hq. apply Qmult_le_compat_r; [exact H | lra].
Qed.

Lemma py_round_nonneg (x : Q) (n : nat) : 0 <= x -> 0 <= py_round x n.
Proof.
  intros H. pose proof (pow10_pos n) as Hp.
  assert (E : inject_Z 0 / pow10 n == 0) by (field; lra).
  rewrite <- E. apply py_round_ge. rewrite E. exact H.
Qed.

Lemma py_round_percent (x : Q) : 0 <= x <= 100 -> 0 <= py_round x 1 <= 100.
Proof.
  intros [H0 H1]. split; [apply py_round_nonneg, H0|].
  assert (E : inject_Z 1000 / pow10 1 == 100) by reflexivity.
  rewrite <- E. apply py_round_le. rewrite E. exact H1.
Qed.

Lemma of_nat_nonneg (n : nat) : 0 <= of_nat n.
Proof. unfold of_nat. change 0 with (inject_Z 0). rewrite <- Zle_Qle. lia. Qed.

Lemma of_nat_pos (n : nat) : (0 < n)%nat -> 0 < of_nat n.
Proof.
  intros H. unfold of_nat. change 0 with (inject_Z 0). rewrite <- Zlt_Qlt. lia.
Qed.

Lemma of_nat_le (m n : nat) : (m <= n)%nat -> of_nat m <= of_nat n.
Proof. intros H. unfold of_nat. rewrite <- Zle_Qle. lia. Qed.

Lemma Qdiv_nonneg (a b : Q) : 0 <= a -> 0 < b -> 0 <= a / b.
Proof. intros Ha Hb. apply Qle_shift_div_l; [exact Hb | lra]. Qed.

End PyNumBounds.

(* ===================================================================== *)
(** ** Speech metrics: further properties *)
(* ===================================================================== *)

Module SpeechMetricsMore.

Import PyStr PyNum SpeechMetrics PyStrSpec SpeechMetricsSpec.
Import SpeechMetricsTerms PyStrFacts PyNumFacts PyNumBounds SpeechMetricsProofs.

(** *** Word counts *)

Lemma count_tokens_all_space s b :
  all_space s = true -> count_tokens b s = 0.
Proof.
  revert b. induction s as [|c s IH]; intros b; simpl; [reflexivity|].
  intros H. apply andb_true_iff in H as [Hc Hs]. rewrite Hc. apply IH, Hs.
Qed.

Lemma count_tokens_zero s :
  count_tokens false s = 0 -> all_space s = true.
Proof.
  induction s as [|c s IH]; simpl; [reflexivity|].
  destruct (isspace c); [exact IH | discriminate].
Qed.

(** X1.  A text has no word exactly when it consists of whitespace (the
    empty text included), and the words of two texts joined by one
    whitespace character are the words of the one plus the words of the
    other. *)
Theorem count_words_edges :
  (forall t, _count_words t = 0 <-> all_space t = true) /\
  (forall s t c, isspace c = true ->
     _count_words (s +:+ String c t) = _count_words s + _count_words t).
Proof.
  split.
  - intros t. rewrite count_words_tokens. split.
    + apply count_tokens_zero.
    + apply count_tokens_all_space.
  - intros s t c Hc. rewrite !count_words_tokens.
    apply count_tokens_app_sep, Hc.
Qed.

Lemma count_words_edges_witness :
  _count_words ("so  far" +:+ String " " "so good") = 4.
Proof.
  rewrite (proj2 count_words_edges "so  far" "so good" " "%char eq_refl).
  reflexivity.
Defined.

(** *** The fields behind the first test *)

Lemma analyze_counts (t : Transcript) (d : Q) :
  default [] (messages t) <> [] -> (0 < d)%Q ->
  let msgs := default [] (messages t) in
  let users := List.filter (has_role "user") msgs in
  let r := analyze_speech_metrics t d in
  longest_monologue_words r = longest_turn users /\
  questions_asked r = length (List.filter is_question users) /\
  user (message_count r) = length users /\
  assistant (message_count r)
  = length (List.filter (has_role "assistant") msgs).
Proof.
  intros Hm Hd msgs users r. subst r users msgs.
  unfold analyze_speech_metrics.
  rewrite (guard_false t d Hm Hd). cbv zeta.
  repeat split; reflexivity.
Qed.

Lemma analyze_empty_path (t : Transcript) (d : Q) :
  default [] (messages t) = [] \/ (d <= 0)%Q ->
  analyze_speech_metrics t d = _empty_metrics.
Proof.
  intros H. unfold analyze_speech_metrics. destruct H as [H|H].
  - rewrite H. reflexivity.
  - apply Qleb_le in H. rewrite H, orb_true_r. reflexivity.
Qed.

(** Every input is on one of the two paths. *)
Lemma analyze_paths (t : Transcript) (d : Q) :
  (default [] (messages t) = [] \/ (d <= 0)%Q) \/
  (default [] (messages t) <> [] /\ (0 < d)%Q).
Proof.
  destruct (decide (default [] (messages t) = [])) as [H|H]; [left; left; exact H|].
  destruct (Qlt_le_dec 0 d) as [Hd|Hd]; [right; split; assumption|].
  left; right; exact Hd.
Qed.

(** *** The longest turn *)

Lemma longest_turn_from (l : list Message) : forall acc : nat,
  fold_left
    (fun longest_monologue m =>
       let word_count := _count_words (get_text m) in
       if (longest_monologue <? word_count)%nat then word_count
       else longest_monologue) l acc
  = Nat.max acc (list_max (map turn_words l)).
Proof.
  induction l as [|m l IH]; intros acc; simpl.
  - lia.
  - rewrite IH. unfold turn_words.
    destruct (acc <? _count_words (get_text m))%nat eqn:E.
    + apply Nat.ltb_lt in E. lia.
    + apply Nat.ltb_ge in E. lia.
Qed.

Lemma longest_turn_max l : longest_turn l = list_max (map turn_words l).
Proof. unfold longest_turn. rewrite longest_turn_from. lia. Qed.

Lemma list_max_le_sum (l : list nat) : list_max l <= list_sum l.
Proof. induction l as [|x l IH]; simpl; lia. Qed.

Lemma list_max_mem (l : list nat) : l <> [] -> In (list_max l) l.
Proof.
  induction l as [|x l IH]; [congruence|]. intros _.
  destruct l as [|y l].
  - left. simpl. lia.
  - change (list_max (x :: y :: l)) with (Nat.max x (list_max (y :: l))).
    destruct (Nat.max_spec x (list_max (y :: l))) as [[_ E]|[_ E]]; rewrite E.
    + right. apply IH. discriminate.
    + left. reflexivity.
Qed.

Lemma role_words_turns r msgs :
  role_words r msgs = list_sum (map turn_words (List.filter (has_role r) msgs)).
Proof.
  unfold role_words. f_equal. apply map_ext. intros m.
  unfold turn_words. rewrite count_words_tokens. apply split_length.
Qed.

(** X2.  The longest monologue is the largest word count of a single user
    utterance (0 without user utterances): no user utterance has more
    words, one of them has exactly that many, and it never exceeds the
    total of the user words. *)
Theorem longest_monologue_is_max (t : Transcript) (d : Q) :
  let r := analyze_speech_metrics t d in
  longest_monologue_words r <= total_user_words r /\
  (default [] (messages t) <> [] -> (0 < d)%Q ->
   let users := List.filter (has_role "user") (default [] (messages t)) in
   longest_monologue_words r = list_max (map turn_words users) /\
   (forall m, In m users -> turn_words m <= longest_monologue_words r) /\
   (users <> [] ->
    exists m, In m users /\ turn_words m = longest_monologue_words r)).
Proof.
  intros r. split.
  - destruct (analyze_paths t d) as [H|[Hm Hd]].
    + unfold r. rewrite (analyze_empty_path t d H). reflexivity.
    + destruct (analyze_counts t d Hm Hd) as (Hl & _).
      destruct (analyze_past_guard t d Hm Hd) as (_ & _ & Hu & _).
      fold r in Hl, Hu. rewrite Hl, Hu, longest_turn_max, role_words_turns.
      apply list_max_le_sum.
  - intros Hm Hd users.
    destruct (analyze_counts t d Hm Hd) as (Hl & _). fold r users in Hl.
    rewrite Hl, longest_turn_max. split; [reflexivity|]. split.
    + intros m Hin.
      assert (H : list_max (map turn_words users)
                  <= list_max (map turn_words users)) by lia.
      apply list_max_le in H. rewrite List.Forall_forall in H.
      apply H, in_map, Hin.
    + intros Hne.
      assert (Hin : In (list_max (map turn_words users)) (map turn_words users)).
      { apply list_max_mem. destruct users; [congruence | discriminate]. }
      apply in_map_iff in Hin as (m & Hm' & Hin). exists m. auto.
Qed.

Lemma longest_monologue_is_max_witness :
  longest_monologue_words (analyze_speech_metrics mixed_roles 60) = 5.
Proof.
  assert (Hm : default [] (messages mixed_roles) <> []) by discriminate.
  assert (Hd : (0 < 60)%Q) by reflexivity.
  destruct (proj2 (longest_monologue_is_max mixed_roles 60) Hm Hd) as (H & _).
  rewrite H. vm_compute. reflexivity.
Defined.

(** *** Questions *)

Lemma append_cons a (s t : string) : String a s +:+ t = String a (s +:+ t).
Proof. reflexivity. Qed.

Lemma append_assoc (s t u : string) : (s +:+ t) +:+ u = s +:+ (t +:+ u).
Proof.
  induction s as [|a s IH]; [reflexivity|].
  rewrite !append_cons, IH. reflexivity.
Qed.

Lemma ends_with_char_last c s :
  ends_with_char c s = true <-> exists pre, s = pre +:+ String c "".
Proof.
  induction s as [|a s IH].
  - simpl. split; [discriminate|]. intros [[|b pre] H]; inversion H.
  - destruct s as [|b s].
    + simpl. destruct (ascii_dec a c) as [->|Hn]; split.
      * intros _. exists "". reflexivity.
      * reflexivity.
      * discriminate.
      * intros [[|x pre] H].
        -- inversion H. congruence.
        -- rewrite append_cons in H. injection H as _ H.
           destruct pre; inversion H.
    + change (ends_with_char c (String a (String b s)))
        with (ends_with_char c (String b s)).
      rewrite IH. split.
      * intros [pre ->]. exists (String a pre). reflexivity.
      * intros [[|x pre] H]; [inversion H|].
        rewrite append_cons in H. injection H as _ H. exists pre. exact H.
Qed.

Lemma rstrip_all_space ws : all_space ws = true -> rstrip ws = "".
Proof.
  induction ws as [|a ws IH]; simpl; [reflexivity|].
  intros H. apply andb_true_iff in H as [Ha Hw].
  rewrite (IH Hw), Ha. reflexivity.
Qed.

(** What [rstrip] cuts off is whitespace. *)
Lemma rstrip_decomp s :
  exists ws, all_space ws = true /\ s = rstrip s +:+ ws.
Proof.
  induction s as [|a s (ws & Hws & Hs)].
  - exists "". split; reflexivity.
  - cbn [rstrip]. destruct (rstrip s) as [|b r] eqn:E.
    + change ("" +:+ ws) with ws in Hs. subst ws.
      destruct (isspace a) eqn:Ha.
      * exists (String a s). cbn [all_space]. rewrite Ha.
        split; [exact Hws | reflexivity].
      * exists s. split; [exact Hws | reflexivity].
    + exists ws. split; [exact Hws|]. rewrite append_cons. f_equal. exact Hs.
Qed.

Lemma rstrip_last pre c ws :
  isspace c = false -> all_space ws = true ->
  rstrip (pre +:+ String c ws) = pre +:+ String c "".
Proof.
  intros Hc Hws. induction pre as [|a pre IH].
  - change (rstrip (String c ws) = String c "").
    cbn [rstrip]. rewrite (rstrip_all_space ws Hws), Hc. reflexivity.
  - rewrite !append_cons. cbn [rstrip]. rewrite IH.
    destruct pre; reflexivity.
Qed.

Lemma ends_with_char_lstrip c s :
  ends_with_char c (rstrip (lstrip s)) = ends_with_char c (rstrip s).
Proof.
  induction s as [|a s IH]; [reflexivity|].
  cbn [lstrip]. destruct (isspace a) eqn:Ha; [|reflexivity].
  rewrite IH. cbn [rstrip]. rewrite Ha.
  destruct (rstrip s) as [|b r]; reflexivity.
Qed.

(** The stripped text ends with [c] exactly when [c] is the last
    character of the text that is not whitespace. *)
Lemma ends_with_char_strip c t :
  isspace c = false ->
  ends_with_char c (strip t) = true
  <-> exists pre ws, t = pre +:+ String c ws /\ all_space ws = true.
Proof.
  intros Hc. unfold strip. rewrite ends_with_char_lstrip, ends_with_char_last.
  split.
  - intros [pre Hpre]. destruct (rstrip_decomp t) as (ws & Hws & Ht).
    exists pre, ws. split; [|exact Hws].
    rewrite Ht at 1. rewrite Hpre, append_assoc. reflexivity.
  - intros (pre & ws & -> & Hws). exists pre. apply rstrip_last; assumption.
Qed.

Lemma filter_length_le {A} (f : A -> bool) (l : list A) :
  length (List.filter f l) <= length l.
Proof. induction l as [|x l IH]; simpl; [lia|]. destruct (f x); simpl; lia. Qed.

(** X3.  questions_asked is the number of user utterances whose last
    character that is not whitespace is a question mark: a question mark
    inside an utterance does not count, an utterance counts once, and
    the count never exceeds the number of user utterances. *)
Theorem questions_counted (t : Transcript) (d : Q) :
  let r := analyze_speech_metrics t d in
  questions_asked r <= user (message_count r) /\
  (default [] (messages t) <> [] -> (0 < d)%Q ->
   questions_asked r
   = length (List.filter is_question
               (List.filter (has_role "user") (default [] (messages t))))) /\
  (forall m, is_question m = true
     <-> exists pre ws, get_text m = pre +:+ String "?" ws
                        /\ all_space ws = true).
Proof.
  intros r. split; [|split].
  - destruct (analyze_paths t d) as [H|[Hm Hd]].
    + unfold r. rewrite (analyze_empty_path t d H). reflexivity.
    + destruct (analyze_counts t d Hm Hd) as (_ & Hq & Hu & _).
      fold r in Hq, Hu. rewrite Hq, Hu. apply filter_length_le.
  - intros Hm Hd. apply (analyze_counts t d Hm Hd).
  - intros m. unfold is_question. apply ends_with_char_strip. reflexivity.
Qed.

Lemma questions_counted_witness :
  questions_asked (analyze_speech_metrics mixed_roles 60) = 1.
Proof.
  assert (Hm : default [] (messages mixed_roles) <> []) by discriminate.
  assert (Hd : (0 < 60)%Q) by reflexivity.
  destruct (questions_counted mixed_roles 60) as (_ & H & _).
  rewrite (H Hm Hd). vm_compute. reflexivity.
Defined.

(** *** Roles the metrics do not read *)

Lemma filter_known_role r msgs :
  r = "user" \/ r = "assistant" ->
  List.filter (has_role r) (List.filter known_role msgs)
  = List.filter (has_role r) msgs.
Proof.
  intros Hr. induction msgs as [|m msgs IH]; [reflexivity|].
  cbn [List.filter]. unfold known_role at 1.
  destruct (has_role "user" m) eqn:Eu; cbn [orb].
  - cbn [List.filter]. rewrite IH. reflexivity.
  - destruct (has_role "assistant" m) eqn:Ea.
    + cbn [List.filter]. rewrite IH. reflexivity.
    + rewrite IH. destruct Hr as [-> | ->]; [rewrite Eu | rewrite Ea];
        reflexivity.
Qed.

(** X4.  Utterances whose role is neither "user" nor "assistant" (or
    that have no role) change no metric: as long as an utterance of one
    of the two roles is left, the result is the one of the transcript
    without them. *)
Theorem other_roles_ignored (msgs : list Message) (d : Q) :
  List.filter known_role msgs <> [] ->
  analyze_speech_metrics {| messages := Some msgs |} d
  = analyze_speech_metrics
      {| messages := Some (List.filter known_role msgs) |} d.
Proof.
  intros Hk.
  assert (Hm : msgs <> []) by (intros ->; apply Hk; reflexivity).
  unfold analyze_speech_metrics. cbn [messages default from_option id].
  rewrite (bool_decide_eq_false_2 _ Hm), (bool_decide_eq_false_2 _ Hk).
  cbn [orb]. destruct (Qleb d 0); [reflexivity|].
  rewrite !(filter_known_role "user") by (left; reflexivity).
  rewrite !(filter_known_role "assistant") by (right; reflexivity).
  reflexivity.
Qed.

Lemma other_roles_ignored_witness :
  analyze_speech_metrics mixed_roles 60
  = analyze_speech_metrics
      {| messages := Some
           [ said "user" "Do you have collaboration challenges?  ";
             said "assistant" "Yes, we struggle with remote communication.";
             said "user" "I see" ] |} 60.
Proof.
  apply (other_roles_ignored
           [ said "user" "Do you have collaboration challenges?  ";
             said "system" "um, recording started";
             said "assistant" "Yes, we struggle with remote communication.";
             said "user" "I see" ] 60).
  discriminate.
Defined.

Lemma roles_exclusive m :
  has_role "user" m = true -> has_role "assistant" m = false.
Proof.
  unfold has_role. intros H. apply bool_decide_eq_true in H.
  apply bool_decide_eq_false. rewrite H. discriminate.
Qed.

(** X5.  The numbers of user and assistant utterances never add up to
    more than the utterances of the transcript, and they add up to all
    of them exactly when every utterance has one of the two roles. *)
Theorem message_counts_partition (t : Transcript) (d : Q) :
  default [] (messages t) <> [] -> (0 < d)%Q ->
  let r := analyze_speech_metrics t d in
  let msgs := default [] (messages t) in
  user (message_count r) + assistant (message_count r)
  = length (List.filter known_role msgs) /\
  user (message_count r) + assistant (message_count r) <= length msgs /\
  (user (message_count r) + assistant (message_count r) = length msgs
   <-> forall m, In m msgs -> known_role m = true).
Proof.
  intros Hm Hd r msgs.
  destruct (analyze_counts t d Hm Hd) as (_ & _ & Hu & Ha).
  fold r msgs in Hu, Ha. rewrite Hu, Ha. clear.
  assert (E : length (List.filter (has_role "user") msgs)
              + length (List.filter (has_role "assistant") msgs)
              = length (List.filter known_role msgs)).
  { induction msgs as [|m msgs IH]; [reflexivity|].
    cbn [List.filter]. unfold known_role at 1.
    destruct (has_role "user" m) eqn:Eu;
      [rewrite (roles_exclusive m Eu) | destruct (has_role "assistant" m)];
      cbn [orb length]; lia. }
  rewrite E. split; [reflexivity|]. split; [apply filter_length_le|].
  clear E. induction msgs as [|m msgs IH].
  - split; [intros _ m []| reflexivity].
  - cbn [List.filter]. pose proof (filter_length_le known_role msgs) as Hle.
    destruct (known_role m) eqn:Ek; cbn [length].
    + split.
      * intros H m' [<-|Hin]; [exact Ek|]. apply IH; [lia | exact Hin].
      * intros H. f_equal. apply IH. intros m' Hin. apply H. right. exact Hin.
    + split; [lia|]. intros H. specialize (H m (or_introl eq_refl)). congruence.
Qed.

Lemma message_counts_partition_witness :
  user (message_count (analyze_speech_metrics mixed_roles 60))
  + assistant (message_count (analyze_speech_metrics mixed_roles 60)) = 3.
Proof.
  assert (Hm : default [] (messages mixed_roles) <> []) by discriminate.
  assert (Hd : (0 < 60)%Q) by reflexivity.
  rewrite (proj1 (message_counts_partition mixed_roles 60 Hm Hd)).
  reflexivity.
Defined.

(** *** The filler breakdown and the total *)

Lemma sum_values_insert (m : gmap string nat) (i : string) (x : nat) :
  m !! i = None -> sum_values (<[i := x]> m) = sum_values m + x.
Proof.
  intros H. unfold sum_values.
  rewrite map_fold_insert_L; [reflexivity | | exact H].
  intros. lia.
Qed.

Lemma sum_values_empty : sum_values ∅ = 0.
Proof. unfold sum_values. apply map_fold_empty. Qed.

(** Leaving out the entries with a count of zero does not change the
    sum. *)
Lemma sum_values_filter_pos (m : gmap string nat) :
  sum_values (filter (fun kv => 0 < kv.2) m) = sum_values m.
Proof.
  induction m as [|i x m Hi IH] using map_ind.
  - rewrite map_filter_empty. reflexivity.
  - rewrite (sum_values_insert m i x Hi).
    destruct (decide (0 < x)) as [Hx|Hx].
    + rewrite map_filter_insert_True by exact Hx.
      rewrite sum_values_insert, IH; [reflexivity|].
      apply map_lookup_filter_None. left. exact Hi.
    + rewrite map_filter_insert_not'; [rewrite IH; lia | exact Hx |].
      intros y Hy. congruence.
Qed.

Lemma sum_values_lookup_le (m : gmap string nat) (k : string) (v : nat) :
  m !! k = Some v -> v <= sum_values m.
Proof.
  intros H. rewrite <- (insert_delete_id m k v H).
  rewrite sum_values_insert by apply lookup_delete_eq. lia.
Qed.

Lemma sum_values_zero (m : gmap string nat) :
  (forall k v, m !! k = Some v -> 0 < v) -> sum_values m = 0 -> m = ∅.
Proof.
  intros Hpos Hz. apply map_empty. intros k.
  destruct (m !! k) as [v|] eqn:E; [|reflexivity].
  pose proof (Hpos k v E). pose proof (sum_values_lookup_le m k v E). lia.
Qed.

(** X6.  The counts of the breakdown add up to the total of the filler
    words, whatever the input: every entry of the breakdown is positive
    and at most the total, and the breakdown is empty exactly when the
    total is 0. *)
Theorem breakdown_adds_up (t : Transcript) (d : Q) :
  let r := filler_words (analyze_speech_metrics t d) in
  sum_values (breakdown r) = total r /\
  (forall f n, breakdown r !! f = Some n -> 0 < n <= total r) /\
  (breakdown r = ∅ <-> total r = 0).
Proof.
  intros r.
  assert (Hsum : sum_values (breakdown r) = total r).
  { destruct (analyze_paths t d) as [H|[Hm Hd]].
    - unfold r. rewrite (analyze_empty_path t d H). apply sum_values_empty.
    - destruct (analyze_past_guard t d Hm Hd)
        as (_ & _ & _ & _ & Ht & _ & Hb & _).
      fold r in Ht, Hb. rewrite Hb, Ht. apply sum_values_filter_pos. }
  assert (Hpos : forall f n, breakdown r !! f = Some n -> 0 < n).
  { intros f n. destruct (analyze_paths t d) as [H|[Hm Hd]].
    - unfold r. rewrite (analyze_empty_path t d H).
      cbn [filler_words _empty_metrics breakdown]. rewrite lookup_empty.
      discriminate.
    - destruct (analyze_past_guard t d Hm Hd)
        as (_ & _ & _ & _ & _ & _ & Hb & _).
      fold r in Hb. rewrite Hb, map_lookup_filter_Some. cbn [snd]. tauto. }
  split; [exact Hsum|]. split.
  - intros f n H. split; [exact (Hpos f n H)|].
    rewrite <- Hsum. apply (sum_values_lookup_le _ f n H).
  - rewrite <- Hsum. split.
    + intros ->. apply sum_values_empty.
    + apply sum_values_zero, Hpos.
Qed.

Lemma breakdown_adds_up_witness :
  sum_values
    (breakdown (filler_words (analyze_speech_metrics filler_transcript 30)))
  = 5.
Proof.
  rewrite (proj1 (breakdown_adds_up filler_transcript 30)).
  assert (Hm : default [] (messages filler_transcript) <> []) by discriminate.
  assert (Hd : (0 < 30)%Q) by reflexivity.
  destruct (analyze_past_guard filler_transcript 30 Hm Hd)
    as (_ & _ & _ & _ & Ht & _).
  rewrite Ht, sum_values_count_fillers. vm_compute. reflexivity.
Defined.

(** *** Ranges *)

Local Open Scope Q_scope.

(** The share of [u] in [u + a], in percent. *)
Lemma share_percent (u a : nat) :
  (0 < u + a)%nat -> 0 <= of_nat u / of_nat (u + a) * 100 <= 100.
Proof.
  intros H. pose proof (of_nat_pos _ H) as Hp.
  pose proof (of_nat_nonneg u) as Hu.
  pose proof (of_nat_le u (u + a) ltac:(lia)) as Hle.
  assert (H0 : 0 <= of_nat u / of_nat (u + a)) by (apply Qdiv_nonneg; assumption).
  assert (H1 : of_nat u / of_nat (u + a) <= 1).
  { apply Qle_shift_div_r; [exact Hp | lra]. }
  split; lra.
Qed.

(** X7.  Whatever the input, no rate is negative and both percentages
    lie between 0 and 100. *)
Theorem rates_in_range (t : Transcript) (d : Q) :
  let r := analyze_speech_metrics t d in
  0 <= words_per_minute r /\
  0 <= per_minute (filler_words r) /\
  0 <= user_percent (talk_listen_ratio r) <= 100 /\
  0 <= prospect_percent (talk_listen_ratio r) <= 100.
Proof.
  intros r. destruct (analyze_paths t d) as [H|[Hm Hd]].
  - unfold r. rewrite (analyze_empty_path t d H).
    cbn [_empty_metrics words_per_minute filler_words per_minute
         talk_listen_ratio user_percent prospect_percent].
    repeat split; lra.
  - destruct (analyze_past_guard t d Hm Hd)
      as (Hw & _ & _ & _ & _ & Hf & _ & Hu & Hp & _).
    fold r in Hw, Hf, Hu, Hp.
    assert (Hmin : 0 < d / 60) by (apply Qlt_shift_div_l; lra).
    assert (Hup : 0 <= user_percent (talk_listen_ratio r) <= 100).
    { rewrite Hu. destruct (0 <? _)%nat eqn:E; [|lra].
      apply Nat.ltb_lt in E. apply py_round_percent, share_percent, E. }
    split; [|split; [|split; [exact Hup|]]].
    + rewrite Hw. apply py_round_nonneg, Qdiv_nonneg;
        [apply of_nat_nonneg | exact Hmin].
    + rewrite Hf. apply py_round_nonneg, Qdiv_nonneg;
        [apply of_nat_nonneg | exact Hmin].
    + rewrite Hp. apply py_round_percent. lra.
Qed.

(** X8.  When the user utterances hold no word (a non-empty transcript,
    a positive duration), the pace is 0 and "too_slow", the user share is
    0 and "too_quiet", and the prospect share is 100: also when the
    prospect has said nothing either, where the share is not computed by
    a division. *)
Theorem wordless_user (t : Transcript) (d : Q) :
  default [] (messages t) <> [] -> 0 < d ->
  let r := analyze_speech_metrics t d in
  total_user_words r = 0%nat ->
  words_per_minute r = 0 /\
  wpm_assessment r = "too_slow" /\
  user_percent (talk_listen_ratio r) = 0 /\
  prospect_percent (talk_listen_ratio r) = 100 /\
  assessment (talk_listen_ratio r) = "too_quiet".
Proof.
  intros Hm Hd r Hz.
  destruct (analyze_past_guard t d Hm Hd)
    as (Hw & Ha & Hu & _ & _ & _ & _ & Hp & Hpp & Hpa).
  fold r in Hw, Ha, Hu, Hp, Hpp, Hpa. rewrite Hz in Hu. rewrite <- Hu in Hw, Hp.
  assert (Hw0 : words_per_minute r = 0).
  { rewrite Hw. apply py_round_zero. unfold of_nat. simpl. unfold Qdiv. ring. }
  assert (Hp0 : user_percent (talk_listen_ratio r) = 0).
  { rewrite Hp. destruct (0 <? _)%nat; [|reflexivity].
    apply py_round_zero. unfold of_nat at 1. simpl. unfold Qdiv. ring. }
  split; [exact Hw0|]. split; [rewrite Ha, Hw0; reflexivity|].
  split; [exact Hp0|]. split; [rewrite Hpp, Hp0; reflexivity|].
  rewrite Hpa, Hp0. reflexivity.
Qed.

Lemma wordless_user_witness :
  user_percent (talk_listen_ratio (analyze_speech_metrics silent 30)) = 0 /\
  prospect_percent (talk_listen_ratio (analyze_speech_metrics silent 30)) = 100.
Proof.
  assert (Hm : default [] (messages silent) <> []) by discriminate.
  assert (Hd : 0 < 30) by reflexivity.
  assert (Hz : total_user_words (analyze_speech_metrics silent 30) = 0%nat)
    by (vm_compute; reflexivity).
  destruct (wordless_user silent 30 Hm Hd Hz) as (_ & _ & Hu & Hp & _).
  split; assumption.
Defined.

(** *** A filler inside a filler *)

Local Close Scope Q_scope.

Lemma match_here_uh_huh prev s :
  match_here "uh-huh" prev s = true -> match_here "uh" prev s = true.
Proof.
  unfold match_here. intros H. apply andb_true_iff in H as [Hb Hm].
  rewrite Hb. cbn [andb].
  destruct (match_literal "uh-huh" s) as [rest|] eqn:E; [|discriminate].
  apply match_literal_Some in E. subst s. reflexivity.
Qed.

Lemma occurrences_uh_huh s : forall prev,
  occurrences "uh-huh" prev s <= occurrences "uh" prev s.
Proof.
  induction s as [|c s IH]; intros prev; cbn [occurrences].
  - destruct (match_here "uh-huh" prev "") eqn:E;
      [rewrite (match_here_uh_huh _ _ E); lia|].
    destruct (match_here "uh" prev ""); lia.
  - specialize (IH (Some c)).
    destruct (match_here "uh-huh" prev (String c s)) eqn:E;
      [rewrite (match_here_uh_huh _ _ E); lia|].
    destruct (match_here "uh" prev (String c s)); lia.
Qed.

Lemma findall_uh_huh text :
  findall_count "uh-huh" text <= findall_count "uh" text.
Proof.
  rewrite !findall_count_occurrences by reflexivity.
  apply occurrences_uh_huh.
Qed.

Lemma sum_values_two (m : gmap string nat) (k1 k2 : string) (v1 v2 : nat) :
  k1 <> k2 -> m !! k1 = Some v1 -> m !! k2 = Some v2 ->
  v1 + v2 <= sum_values m.
Proof.
  intros Hne H1 H2. rewrite <- (insert_delete_id m k1 v1 H1).
  rewrite sum_values_insert by apply lookup_delete_eq.
  assert (H : delete k1 m !! k2 = Some v2)
    by (rewrite lookup_delete_ne by exact Hne; exact H2).
  pose proof (sum_values_lookup_le _ _ _ H). lia.
Qed.

(** X9.  The catalog holds "uh" and "uh-huh", and the first stands as a
    word at the start of the second: every "uh-huh" of the user is counted
    under both.  The count of "uh" is never below the count of "uh-huh",
    and when the breakdown lists "uh-huh" it lists "uh" too, the total
    holding both counts. *)
Theorem uh_huh_counts_twice (t : Transcript) (d : Q) :
  (forall text, findall_count "uh-huh" text <= findall_count "uh" text) /\
  (default [] (messages t) <> [] -> (0 < d)%Q ->
   let r := filler_words (analyze_speech_metrics t d) in
   forall n, breakdown r !! "uh-huh" = Some n ->
     exists m, breakdown r !! "uh" = Some m /\ n <= m /\ n + m <= total r).
Proof.
  split; [exact findall_uh_huh|]. intros Hm Hd r n Hn.
  destruct (analyze_past_guard t d Hm Hd)
    as (_ & _ & _ & _ & Ht & _ & Hb & _).
  fold r in Ht, Hb.
  set (user_text := role_text "user" (default [] (messages t))) in *.
  assert (Huh : breakdown r !! "uh"
                = Some (findall_count "uh" (lower user_text))).
  { rewrite Hb, map_lookup_filter_Some, count_fillers_lookup. cbn [snd].
    rewrite Hb, map_lookup_filter_Some, count_fillers_lookup in Hn.
    cbn [snd] in Hn. destruct Hn as ((_ & ->) & Hpos).
    pose proof (findall_uh_huh (lower user_text)).
    split; [split; [|reflexivity] | lia].
    apply elem_of_FILLER_WORDS, (bool_decide_eq_true_1 _).
    vm_compute. reflexivity. }
  exists (findall_count "uh" (lower user_text)).
  split; [exact Huh|].
  assert (Hn' : n = findall_count "uh-huh" (lower user_text)).
  { rewrite Hb, map_lookup_filter_Some, count_fillers_lookup in Hn.
    apply Hn. }
  split; [rewrite Hn'; apply findall_uh_huh|].
  rewrite Ht, <- (sum_values_filter_pos (_count_fillers user_text)), <- Hb.
  apply (sum_values_two _ "uh-huh" "uh"); [discriminate | exact Hn | exact Huh].
Qed.

Lemma uh_huh_counts_twice_witness :
  exists m,
    breakdown (filler_words
                 (analyze_speech_metrics
                    {| messages := Some [said "user" "Uh-huh, go on"] |} 30))
      !! "uh" = Some m /\ 1 <= m.
Proof.
  assert (Hm : default [] (messages {| messages :=
                 Some [said "user" "Uh-huh, go on"] |}) <> []) by discriminate.
  assert (Hd : (0 < 30)%Q) by reflexivity.
  destruct (proj2 (uh_huh_counts_twice
                     {| messages := Some [said "user" "Uh-huh, go on"] |} 30)
                  Hm Hd 1) as (m & Hu & Hle & _).
  - vm_compute. reflexivity.
  - exists m. split; [exact Hu | exact Hle].
Defined.

End SpeechMetricsMore.

(* ===================================================================== *)
(** ** Emotion aggregation: further properties *)
(* ===================================================================== *)

Module EmotionMore.

Import PyNum EmotionAnalysis EmotionSpec EmotionTerms.
Import PyNumFacts PyNumBounds EmotionProofs.

(** *** The summary, field by field *)

Lemma filter_idem {A} (f : A -> bool) (l : list A) :
  List.filter f (List.filter f l) = List.filter f l.
Proof.
  induction l as [|x l IH]; [reflexivity|].
  cbn [List.filter]. destruct (f x) eqn:E; [|exact IH].
  cbn [List.filter]. rewrite E, IH. reflexivity.
Qed.

Lemma overall_average_nil rel : overall_average rel [] = 0%Q.
Proof. reflexivity. Qed.

(** The averages and the number of readings, with or without a user
    reading. *)
Lemma summary_fields (e : EmotionData) :
  let kept := List.filter is_user (default [] (prosody_scores e)) in
  dimension_averages (summarize_emotions e)
  = map (fun dr => (dr.1, overall_average dr.2 kept)) COACHING_EMOTIONS /\
  total_readings (summarize_emotions e) = length kept /\
  timeline (summarize_emotions e) = imap timeline_point kept.
Proof.
  intros kept. destruct kept as [|r rs] eqn:E.
  - rewrite (summarize_empty e E). repeat split.
  - assert (H : List.filter is_user (default [] (prosody_scores e)) <> [])
      by (fold kept; rewrite E; discriminate).
    rewrite (summarize_nonempty e H).
    cbn [dimension_averages total_readings timeline].
    fold kept. rewrite E. split; [apply compute_averages_spec|].
    split; reflexivity.
Qed.

(** X10.  Readings of another role than "user" (or without a role) never
    reach the summary: it is the summary of the user readings alone, and
    it counts no more readings than the telemetry has. *)
Theorem non_user_readings_ignored (e : EmotionData) :
  let kept := List.filter is_user (default [] (prosody_scores e)) in
  summarize_emotions e = summarize_emotions {| prosody_scores := Some kept |} /\
  total_readings (summarize_emotions e)
  <= length (default [] (prosody_scores e)).
Proof.
  intros kept. split.
  - destruct kept as [|r rs] eqn:E.
    + rewrite (summarize_empty e E). reflexivity.
    + assert (H : List.filter is_user (default [] (prosody_scores e)) <> [])
        by (fold kept; rewrite E; discriminate).
      assert (H' : List.filter is_user
                     (default [] (prosody_scores
                                    {| prosody_scores := Some (r :: rs) |}))
                   <> []).
      { cbn [prosody_scores default from_option id].
        rewrite <- E. unfold kept. rewrite filter_idem. exact H. }
      rewrite (summarize_nonempty e H), (summarize_nonempty _ H').
      cbn [prosody_scores default from_option id].
      fold kept. rewrite <- E. unfold kept. rewrite filter_idem. reflexivity.
  - destruct (summary_fields e) as (_ & Ht & _). rewrite Ht.
    clear. induction (default [] (prosody_scores e)) as [|r l IH]; [reflexivity|].
    cbn [List.filter]. destruct (is_user r); cbn [length]; lia.
Qed.

(** *** Labels no dimension names *)

Lemma labels_listed (dr : string * list string) (k : string) :
  In dr COACHING_EMOTIONS -> In k dr.2 -> In k ALL_LABELS.
Proof.
  intros Hdr Hk. unfold ALL_LABELS. apply in_concat. exists dr.2.
  split; [apply in_map, Hdr | exact Hk].
Qed.

Lemma get_emotions_known (r : Reading) :
  get_emotions (known_labels r)
  = filter (fun kv : string * Q => kv.1 ∈ ALL_LABELS) (get_emotions r).
Proof.
  unfold get_emotions, known_labels. cbn [emotions].
  destruct (emotions r); cbn [fmap option_fmap option_map default from_option id].
  - reflexivity.
  - symmetry. apply map_filter_empty.
Qed.

Lemma present_scores_known (r : Reading) (rel : list string) :
  (forall k, In k rel -> In k ALL_LABELS) ->
  present_scores (get_emotions (known_labels r)) rel
  = present_scores (get_emotions r) rel.
Proof.
  intros H. rewrite get_emotions_known. unfold present_scores.
  induction rel as [|k rel IH]; [reflexivity|].
  cbn [omap list_omap].
  assert (E : filter (fun kv : string * Q => kv.1 ∈ ALL_LABELS)
                     (get_emotions r) !! k = get_emotions r !! k).
  { apply option_eq. intros v. rewrite map_lookup_filter_Some. cbn [fst].
    split; [tauto|]. intros Hv. split; [exact Hv|].
    apply list_elem_of_In, H. left. reflexivity. }
  rewrite E. rewrite IH; [reflexivity|].
  intros k' Hk'. apply H. right. exact Hk'.
Qed.

Lemma known_labels_sample (dr : string * list string) (r : Reading) :
  In dr COACHING_EMOTIONS ->
  has_sample dr.2 (known_labels r) = has_sample dr.2 r /\
  reading_mean dr.2 (known_labels r) = reading_mean dr.2 r /\
  reading_score dr.2 (known_labels r) = reading_score dr.2 r.
Proof.
  intros Hdr.
  assert (E : present_scores (get_emotions (known_labels r)) dr.2
              = present_scores (get_emotions r) dr.2).
  { apply present_scores_known. intros k. apply labels_listed, Hdr. }
  assert (Hs : has_sample dr.2 (known_labels r) = has_sample dr.2 r).
  { unfold has_sample.
    destruct (existsb _ dr.2) eqn:X1;
      destruct (existsb (fun e => bool_decide (is_Some (get_emotions r !! e)))
                        dr.2) eqn:X2; try reflexivity.
    - apply present_scores_nil in X2. rewrite <- E in X2.
      apply present_scores_nil in X2. congruence.
    - apply present_scores_nil in X1. rewrite E in X1.
      apply present_scores_nil in X1. congruence. }
  assert (Hm : reading_mean dr.2 (known_labels r) = reading_mean dr.2 r).
  { unfold reading_mean. rewrite E. reflexivity. }
  split; [exact Hs|]. split; [exact Hm|].
  unfold reading_score. rewrite Hs, Hm. reflexivity.
Qed.

Lemma is_user_known (r : Reading) : is_user (known_labels r) = is_user r.
Proof. reflexivity. Qed.

Lemma filter_user_known (l : list Reading) :
  List.filter is_user (map known_labels l)
  = map known_labels (List.filter is_user l).
Proof.
  induction l as [|r l IH]; [reflexivity|].
  cbn [map List.filter]. rewrite is_user_known.
  destruct (is_user r); cbn [map]; rewrite IH; reflexivity.
Qed.

Lemma overall_average_known (dr : string * list string) (l : list Reading) :
  In dr COACHING_EMOTIONS ->
  overall_average dr.2 (map known_labels l) = overall_average dr.2 l.
Proof.
  intros Hdr. unfold overall_average.
  assert (E : map (reading_mean dr.2)
                  (List.filter (has_sample dr.2) (map known_labels l))
              = map (reading_mean dr.2) (List.filter (has_sample dr.2) l)).
  { induction l as [|r l IH]; [reflexivity|].
    cbn [map List.filter].
    destruct (known_labels_sample dr r Hdr) as (Hs & Hm & _).
    rewrite Hs. destruct (has_sample dr.2 r); [|exact IH].
    cbn [map]. rewrite Hm, IH. reflexivity. }
  destruct (List.filter (has_sample dr.2) (map known_labels l)) as [|a la];
    destruct (List.filter (has_sample dr.2) l) as [|b lb];
    try discriminate; [reflexivity|].
  rewrite E. reflexivity.
Qed.

Lemma timeline_point_known (i : nat) (r : Reading) :
  timeline_point i (known_labels r) = timeline_point i r.
Proof.
  rewrite !timeline_point_spec. cbn [timestamp known_labels]. f_equal.
  apply map_ext_in. intros dr Hdr.
  destruct (known_labels_sample dr r Hdr) as (_ & _ & Hs). rewrite Hs.
  reflexivity.
Qed.

(** X11.  A score whose label belongs to none of the five dimensions is
    never read: the summary of the readings is the summary of the
    readings with such scores taken out. *)
Theorem unknown_labels_never_read (l : list Reading) :
  summarize_emotions {| prosody_scores := Some (map known_labels l) |}
  = summarize_emotions {| prosody_scores := Some l |}.
Proof.
  destruct (List.filter is_user l) as [|r rs] eqn:E.
  - rewrite !summarize_empty; [reflexivity | exact E |].
    cbn [prosody_scores default from_option id].
    rewrite filter_user_known, E. reflexivity.
  - assert (H : List.filter is_user
                  (default [] (prosody_scores {| prosody_scores := Some l |}))
                <> []).
    { cbn [prosody_scores default from_option id]. rewrite E. discriminate. }
    assert (H' : List.filter is_user
                   (default [] (prosody_scores
                      {| prosody_scores := Some (map known_labels l) |}))
                 <> []).
    { cbn [prosody_scores default from_option id].
      rewrite filter_user_known, E. discriminate. }
    rewrite (summarize_nonempty _ H), (summarize_nonempty _ H').
    cbn [prosody_scores default from_option id].
    rewrite filter_user_known.
    assert (Ha : compute_averages
                   (collect_scores (map known_labels (List.filter is_user l)))
                 = compute_averages (collect_scores (List.filter is_user l))).
    { rewrite !compute_averages_spec. apply map_ext_in. intros dr Hdr.
      rewrite (overall_average_known dr _ Hdr). reflexivity. }
    rewrite Ha, length_map. f_equal.
    change (map known_labels (List.filter is_user l))
      with (known_labels <$> List.filter is_user l).
    rewrite imap_fmap. apply imap_ext. intros i x _.
    apply timeline_point_known.
Qed.

(** *** Readings without a sample *)

Lemma no_sample_spec (r : Reading) (dr : string * list string) :
  no_sample r = true -> In dr COACHING_EMOTIONS -> has_sample dr.2 r = false.
Proof.
  unfold no_sample. rewrite forallb_forall. intros H Hdr.
  apply negb_true_iff, (H dr Hdr).
Qed.

(** X12.  A user reading that has no score for a label of any dimension
    is counted in total_readings and gets a timeline point of zeros, but
    changes no average, wherever it stands among the readings. *)
Theorem reading_without_sample (l1 l2 : list Reading) (r : Reading) :
  is_user r = true -> no_sample r = true ->
  let without :=
    summarize_emotions {| prosody_scores := Some (l1 ++ l2)%list |} in
  let s :=
    summarize_emotions {| prosody_scores := Some (l1 ++ r :: l2)%list |} in
  dimension_averages s = dimension_averages without /\
  total_readings s = S (total_readings without) /\
  (forall i, point_scores (timeline_point i r)
             = map (fun dr => (dr.1, 0%Q)) COACHING_EMOTIONS).
Proof.
  intros Hu Hn without s.
  destruct (summary_fields {| prosody_scores := Some (l1 ++ l2)%list |})
    as (Ha & Ht & _).
  destruct (summary_fields {| prosody_scores := Some (l1 ++ r :: l2)%list |})
    as (Ha' & Ht' & _).
  cbn [prosody_scores default from_option id] in Ha, Ht, Ha', Ht'.
  fold without in Ha, Ht. fold s in Ha', Ht'.
  rewrite Ha, Ha', Ht, Ht'. split; [|split].
  - apply map_ext_in. intros dr Hdr. f_equal. unfold overall_average.
    rewrite !List.filter_app. cbn [List.filter]. rewrite Hu.
    rewrite ?List.filter_app. cbn [List.filter].
    rewrite (no_sample_spec r dr Hn Hdr). reflexivity.
  - rewrite !List.filter_app. cbn [List.filter]. rewrite Hu.
    rewrite !length_app. cbn [length]. lia.
  - intros i. rewrite timeline_point_spec. cbn [point_scores].
    apply map_ext_in. intros dr Hdr. unfold reading_score.
    rewrite (no_sample_spec r dr Hn Hdr). reflexivity.
Qed.

Lemma reading_without_sample_witness :
  dimension_averages
    (summarize_emotions
       {| prosody_scores :=
            Some ([noisy_reading] ++ bare_reading :: [])%list |})
  = dimension_averages
      (summarize_emotions
         {| prosody_scores := Some ([noisy_reading] ++ [])%list |}).
Proof.
  apply (reading_without_sample [noisy_reading] [] bare_reading);
    vm_compute; reflexivity.
Defined.

(** *** Ranges *)

Local Open Scope Q_scope.

Lemma py_sum_from (l : list Q) (lo hi : Q) :
  (forall x, In x l -> lo <= x <= hi) ->
  forall acc,
    acc + lo * of_nat (length l) <= fold_left Qplus l acc
    /\ fold_left Qplus l acc <= acc + hi * of_nat (length l).
Proof.
  induction l as [|x l IH]; intros H acc.
  - cbn [fold_left]. change (of_nat (length (@nil Q))) with 0. split; lra.
  - cbn [fold_left length].
    destruct (H x (or_introl eq_refl)) as [Hl Hh].
    destruct (IH (fun y Hy => H y (or_intror Hy)) (acc + x)) as [IHl IHh].
    assert (E : of_nat (S (length l)) == of_nat (length l) + 1).
    { unfold of_nat. rewrite Nat2Z.inj_succ, <- Z.add_1_r, inject_Z_plus.
      reflexivity. }
    rewrite E. split; lra.
Qed.

Lemma mean_within (l : list Q) (lo hi : Q) :
  l <> [] -> (forall x, In x l -> lo <= x <= hi) -> lo <= mean l <= hi.
Proof.
  intros Hne H. unfold mean, py_sum.
  destruct (py_sum_from l lo hi H 0) as [Hl Hh].
  assert (Hp : 0 < of_nat (length l)).
  { apply of_nat_pos. destruct l; [congruence | cbn [length]; lia]. }
  split.
  - apply Qle_shift_div_l; [exact Hp | lra].
  - apply Qle_shift_div_r; [exact Hp | lra].
Qed.

Lemma py_round_unit (x : Q) : 0 <= x <= 1 -> 0 <= py_round x 3 <= 1.
Proof.
  intros [H0 H1]. split; [apply py_round_nonneg, H0|].
  assert (E : inject_Z 1000 / pow10 3 == 1) by reflexivity.
  rewrite <- E. apply py_round_le. rewrite E. exact H1.
Qed.

Lemma present_scores_in (emo : gmap string Q) (rel : list string) (v : Q) :
  In v (present_scores emo rel) -> exists k, emo !! k = Some v.
Proof.
  unfold present_scores. induction rel as [|k rel IH]; [intros []|].
  cbn [omap list_omap]. destruct (emo !! k) as [q|] eqn:E; [|exact IH].
  intros [<-|Hin]; [exists k; exact E | apply IH, Hin].
Qed.

Lemma reading_mean_unit (rel : list string) (r : Reading) :
  scores_within 0 1 r -> has_sample rel r = true ->
  0 <= reading_mean rel r <= 1.
Proof.
  intros Hr Hs. unfold reading_mean. apply mean_within.
  - intros E. apply present_scores_nil in E. unfold has_sample in Hs.
    congruence.
  - intros v Hv. apply present_scores_in in Hv as [k Hk]. apply (Hr k v Hk).
Qed.

Lemma overall_average_unit (rel : list string) (l : list Reading) :
  (forall r, In r l -> scores_within 0 1 r) ->
  0 <= overall_average rel l <= 1.
Proof.
  intros H. unfold overall_average.
  destruct (List.filter (has_sample rel) l) as [|a la] eqn:E; [split; lra|].
  rewrite <- E. apply py_round_unit, mean_within.
  - rewrite E. discriminate.
  - intros v Hv. apply in_map_iff in Hv as (r & <- & Hr).
    apply filter_In in Hr as [Hin Hs]. apply reading_mean_unit; auto.
Qed.

Lemma in_firstn {A} (n : nat) (l : list A) (x : A) :
  In x (firstn n l) -> In x l.
Proof.
  intros H. rewrite <- (firstn_skipn n l). apply in_or_app. left. exact H.
Qed.

Lemma reading_score_unit (rel : list string) (r : Reading) :
  scores_within 0 1 r -> 0 <= reading_score rel r <= 1.
Proof.
  intros Hr. unfold reading_score.
  destruct (has_sample rel r) eqn:E; [|split; lra].
  apply py_round_unit, reading_mean_unit; assumption.
Qed.

(** X13.  When every score of the user readings lies between 0 and 1,
    so does every number of the summary: the five averages, the scores
    of the dominant emotions and the scores of every timeline point. *)
Theorem summary_in_unit_range (e : EmotionData) :
  (forall r, In r (default [] (prosody_scores e)) -> is_user r = true ->
             scores_within 0 1 r) ->
  let s := summarize_emotions e in
  (forall d v, In (d, v) (dimension_averages s) -> 0 <= v <= 1) /\
  (forall de, In de (dominant_emotions s) -> 0 <= score de <= 1) /\
  (forall p d v, In p (timeline s) -> In (d, v) (point_scores p) ->
                 0 <= v <= 1).
Proof.
  intros H s.
  set (kept := List.filter is_user (default [] (prosody_scores e))).
  assert (Hk : forall r, In r kept -> scores_within 0 1 r).
  { intros r Hr. apply filter_In in Hr as [Hin Hu]. apply H; assumption. }
  destruct (summary_fields e) as (Ha & _ & Ht). fold s kept in Ha, Ht.
  assert (Havg : forall d v, In (d, v) (dimension_averages s) -> 0 <= v <= 1).
  { intros d v. rewrite Ha. intros Hin.
    apply in_map_iff in Hin as (dr & [= _ <-] & _).
    apply overall_average_unit, Hk. }
  split; [exact Havg|]. split.
  - intros de Hde. destruct kept as [|r rs] eqn:E.
    + unfold s in Hde. rewrite (summarize_empty e E) in Hde. destruct Hde.
    + assert (Hne : List.filter is_user (default [] (prosody_scores e)) <> [])
        by (fold kept; rewrite E; discriminate).
      unfold s in Hde, Havg. rewrite (summarize_nonempty e Hne) in Hde, Havg.
      cbn [dominant_emotions dimension_averages] in Hde, Havg.
      apply in_map_iff in Hde as ([d v] & <- & Hin). cbn [score snd].
      apply (Havg d v).
      apply (Permutation_in _ (sorted_desc_perm snd _)).
      apply (in_firstn 3), Hin.
  - intros p d v Hp Hv. rewrite Ht in Hp.
    apply list_elem_of_In, elem_of_lookup_imap in Hp as (i & r & -> & Hi).
    rewrite timeline_point_spec in Hv. cbn [point_scores] in Hv.
    apply in_map_iff in Hv as (dr & [= _ <-] & _).
    apply reading_score_unit, Hk.
    apply list_elem_of_In, (list_elem_of_lookup_2 _ i), Hi.
Qed.

Lemma summary_in_unit_range_witness :
  List.Forall (fun dv : string * Q => 0 <= dv.2 <= 1)
    (dimension_averages
       (summarize_emotions {| prosody_scores := Some [noisy_reading] |})).
Proof.
  apply List.Forall_forall. intros [d v'] Hin. cbn [snd]. revert d v' Hin.
  apply (summary_in_unit_range {| prosody_scores := Some [noisy_reading] |}).
  intros r [<-|[]] _ k v.
  unfold get_emotions, noisy_reading, reading.
  cbn [emotions default from_option id list_to_map foldr fold_right fst snd].
  rewrite !lookup_insert_Some, lookup_empty.
  intros [[_ <-]|[_ [[_ <-]|[_ H]]]];
    [split; vm_compute; discriminate..|discriminate].
Defined.

(** *** The dominant emotions *)

Lemma strongly_sorted_split {A} (R : A -> A -> Prop) (l1 l2 : list A) :
  StronglySorted R (l1 ++ l2) ->
  StronglySorted R l1 /\ forall x y, In x l1 -> In y l2 -> R x y.
Proof.
  induction l1 as [|a l1 IH]; cbn [app]; intros H.
  - split; [constructor | intros x y []].
  - inversion H as [|a' l' Hs Hall]; subst.
    destruct (IH Hs) as [Hs1 Hab]. split.
    + constructor; [exact Hs1|]. rewrite List.Forall_forall in *.
      intros x Hx. apply Hall, in_or_app. left. exact Hx.
    + intros x y [<-|Hx] Hy.
      * rewrite List.Forall_forall in Hall. apply Hall, in_or_app.
        right. exact Hy.
      * apply Hab; assumption.
Qed.

(** X14.  With a user reading, the dominant emotions are the three
    largest averages: they are listed from the largest down, and no
    dimension that is not listed has an average above the score of a
    listed one. *)
Theorem dominant_are_largest (e : EmotionData) :
  List.filter is_user (default [] (prosody_scores e)) <> [] ->
  let s := summarize_emotions e in
  StronglySorted (fun a b => score b <= score a) (dominant_emotions s) /\
  (forall de d v,
     In de (dominant_emotions s) -> In (d, v) (dimension_averages s) ->
     ~ In d (listed s) -> v <= score de).
Proof.
  intros Hne s. unfold listed, s. rewrite (summarize_nonempty e Hne).
  cbn [dominant_emotions dimension_averages].
  set (averages := compute_averages _).
  pose proof (sorted_desc_sorted snd averages) as Hs.
  pose proof (sorted_desc_perm snd averages) as Hp.
  rewrite <- (firstn_skipn 3 (sorted_desc snd averages)) in Hs, Hp.
  apply strongly_sorted_split in Hs as [Hs1 Hcross].
  split.
  - clear - Hs1. induction Hs1 as [|a l Hs IH Hall]; cbn [map]; constructor.
    + exact IH.
    + rewrite List.Forall_forall in *. intros de Hde.
      apply in_map_iff in Hde as (x & <- & Hx). apply (Hall x Hx).
  - intros de d v Hde Hin Hnot.
    apply in_map_iff in Hde as (x & <- & Hx). cbn [score].
    apply Permutation_sym in Hp.
    apply (Permutation_in _ Hp), in_app_or in Hin as [Hin|Hin].
    + exfalso. apply Hnot. rewrite map_map. cbn [dimension].
      apply in_map_iff. exists (d, v). split; [reflexivity | exact Hin].
    + apply (Hcross x (d, v) Hx Hin).
Qed.

Lemma dominant_are_largest_witness :
  StronglySorted (fun a b => score b <= score a)
    (dominant_emotions (summarize_emotions two_user_readings)).
Proof.
  apply (dominant_are_largest two_user_readings). discriminate.
Defined.

End EmotionMore.

(* ===================================================================== *)
(** ** Report generation: further properties *)
(* ===================================================================== *)

Module ReportMore.

Import Store CoachingReport ReportSpec ReportTerms ReportProofs.

Section Job.

Variable COACHING_SYSTEM_PROMPT : string.
Variable _build_analysis_prompt :
  SpeechMetrics.Transcript -> SpeechMetrics.Metrics ->
  EmotionAnalysis.EmotionSummary -> string -> string.
Variable create_completion : string -> string -> list (option string) + exn.
Variable json_loads : string -> option json.

Local Abbreviation job :=
  (run_job COACHING_SYSTEM_PROMPT _build_analysis_prompt create_completion
           json_loads).
Local Abbreviation result :=
  (outcome COACHING_SYSTEM_PROMPT _build_analysis_prompt create_completion
           json_loads).

Lemma run_job_outcome (db : gmap uuid CallSession) (call : CallSession) :
  db !! id call = Some call ->
  job (id call) db = (inl tt, <[id call := result call]> db).
Proof. apply run_job_cases. Qed.

Lemma run_job_unknown (k : uuid) (db : gmap uuid CallSession) :
  db !! k = None -> job k db = (inl tt, db).
Proof.
  intros H. unfold run_job, generate_coaching_report, open_session.
  rewrite get_then, H. reflexivity.
Qed.

(** The row the job leaves, whichever way the run goes. *)
Lemma outcome_cases (call : CallSession) :
  result call = missing_row call
  \/ result call = failed_row call
  \/ exists tr dur report,
       transcript call = Some tr /\ duration_seconds call = Some dur /\
       result call = done_row call tr dur report.
Proof.
  unfold outcome.
  destruct (transcript call) as [tr|]; [|left; reflexivity].
  destruct (duration_seconds call) as [dur|]; [|left; reflexivity].
  destruct (_ || _); [left; reflexivity|].
  destruct (model_report _ _ _ _ _ _ _) as [report|];
    [|right; left; reflexivity].
  right; right. exists tr, dur, report. repeat split.
Qed.

Lemma outcome_inputs (call : CallSession) : same_inputs (result call) call.
Proof.
  destruct (outcome_cases call) as [->|[->|(tr & dur & report & _ & _ & ->)]];
    repeat split.
Qed.

(** X15.  The job never raises, and for an id that the table does not
    hold it changes nothing. *)
Theorem job_skips_unknown_session (k : uuid) (db : gmap uuid CallSession) :
  (job k db).1 = inl tt /\
  (db !! k = None -> (job k db).2 = db).
Proof.
  split; [apply job_never_raises|].
  intros H. rewrite (run_job_unknown k db H). reflexivity.
Qed.

(** X16.  A run on a stored session touches one row only: every other
    row is as it was, no row is added or lost, and in the row of the
    session only the status and the analysis results can differ. *)
Theorem job_frame (db : gmap uuid CallSession) (call : CallSession) :
  db !! id call = Some call ->
  let db' := (job (id call) db).2 in
  (forall j, j <> id call -> db' !! j = db !! j) /\
  dom db' = dom db /\
  exists row, db' !! id call = Some row /\ same_inputs row call.
Proof.
  intros H db'. subst db'. rewrite (run_job_outcome db call H). cbn [snd].
  split; [|split].
  - intros j Hj. apply lookup_insert_ne. congruence.
  - apply dom_insert_lookup_L. rewrite H. eexists; reflexivity.
  - exists (result call). split; [apply lookup_insert_eq | apply outcome_inputs].
Qed.

(** X17.  After a run on a stored session the status is "done" or
    "error", never one of the states before: with "error" the results
    are one of the two error descriptors, with "done" they hold the
    speech metrics and the emotion summary. *)
Theorem job_final_state (db : gmap uuid CallSession) (call : CallSession) :
  db !! id call = Some call ->
  exists row,
    (job (id call) db).2 !! id call = Some row /\
    (status row = "done" \/ status row = "error") /\
    (status row = "error" ->
     analysis_results row = Some ANALYSIS_FAILED
     \/ analysis_results row = Some MISSING_DATA) /\
    (status row = "done" ->
     exists results,
       analysis_results row = Some results /\
       is_Some (results !! "speech_metrics") /\
       is_Some (results !! "emotion_summary")).
Proof.
  intros H. rewrite (run_job_outcome db call H). cbn [snd].
  exists (result call). split; [apply lookup_insert_eq|].
  destruct (outcome_cases call) as [->|[->|(tr & dur & report & _ & _ & ->)]].
  - split; [right; reflexivity|]. split; [right; reflexivity|discriminate].
  - split; [right; reflexivity|]. split; [left; reflexivity|discriminate].
  - split; [left; reflexivity|]. split; [discriminate|]. intros _.
    exists (merged call tr dur report). split; [reflexivity|].
    destruct (merged_lookup call tr dur report) as (Hs & He & _).
    rewrite Hs, He. split; eexists; reflexivity.
Qed.

(** X18.  An answer of the model service whose first choice has no
    content, or the empty text, counts as the empty report: for a session
    that passes the data check the run ends in "done", whatever the JSON
    decoder would do, and the stored results hold the speech metrics and
    the emotion summary and nothing else. *)
Theorem empty_answer_ends_done (db : gmap uuid CallSession)
        (call : CallSession) (tr : SpeechMetrics.Transcript) (dur : Q)
        (content : option string) (rest : list (option string)) :
  db !! id call = Some call ->
  transcript call = Some tr -> duration_seconds call = Some dur ->
  not_transcript (transcript call) = false ->
  not_duration (duration_seconds call) = false ->
  content = None \/ content = Some "" ->
  create_completion COACHING_SYSTEM_PROMPT
    (_build_analysis_prompt tr (speech_of tr dur) (emotion_of call)
                            (persona call))
  = inl (content :: rest) ->
  exists row,
    (job (id call) db).2 !! id call = Some row /\
    status row = "done" /\
    analysis_results row
    = Some (<["emotion_summary" := AEmotion (emotion_of call)]>
              {[ "speech_metrics" := ASpeech (speech_of tr dur) ]}).
Proof.
  intros H Ht Hd Hnt Hnd Hc Hans.
  rewrite (run_job_outcome db call H). cbn [snd].
  exists (result call). split; [apply lookup_insert_eq|].
  unfold outcome. rewrite Hnt, Hnd, Ht, Hd. cbn [orb].
  unfold model_report. rewrite Hans.
  destruct Hc as [-> | ->]; cbn [unpack map rev list_to_map foldr fst snd];
    split; reflexivity.
Qed.

End Job.

Lemma empty_answer_ends_done_witness :
  exists row,
    (run_job "system" sample_prompt (answers "") sample_loads 7%N
             (sample_db 120)).2 !! 7%N = Some row /\
    status row = "done".
Proof.
  assert (H : sample_db 120 !! id (sample_call 120) = Some (sample_call 120))
    by apply lookup_singleton_eq.
  destruct (empty_answer_ends_done "system" sample_prompt (answers "")
              sample_loads (sample_db 120) (sample_call 120) _ 120
              (Some "") [] H eq_refl eq_refl eq_refl eq_refl
              (or_intror eq_refl) eq_refl)
    as (row & Hrow & Hs & _).
  exists row. split; [exact Hrow | exact Hs].
Defined.

Lemma job_skips_unknown_session_witness :
  run_job "system" sample_prompt (answers "report") sample_loads 8%N
          (sample_db 120)
  = (inl tt, sample_db 120).
Proof.
  destruct (job_skips_unknown_session "system" sample_prompt (answers "report")
              sample_loads 8%N (sample_db 120)) as [H1 H2].
  destruct (run_job _ _ _ _ _ _) as [a b]. cbn [fst snd] in *.
  rewrite H1, H2; [reflexivity|]. apply lookup_singleton_ne. discriminate.
Defined.

Lemma job_frame_witness :
  (run_job "system" sample_prompt (answers "report") sample_loads 7%N
           two_sessions).2 !! 9%N
  = Some fresh_call.
Proof.
  assert (H : two_sessions !! id (sample_call 120) = Some (sample_call 120)).
  { unfold two_sessions. rewrite lookup_insert_ne by discriminate.
    apply lookup_singleton_eq. }
  destruct (job_frame "system" sample_prompt (answers "report") sample_loads
              two_sessions (sample_call 120) H) as (Hother & _).
  change (id (sample_call 120)) with 7%N in Hother.
  rewrite Hother by discriminate. apply lookup_insert_eq.
Defined.

Lemma job_final_state_witness :
  exists row,
    (run_job "system" sample_prompt refuses sample_loads 7%N
             (sample_db 120)).2 !! 7%N = Some row /\
    (status row = "done" \/ status row = "error").
Proof.
  assert (H : sample_db 120 !! id (sample_call 120) = Some (sample_call 120))
    by apply lookup_singleton_eq.
  destruct (job_final_state "system" sample_prompt refuses sample_loads
              (sample_db 120) (sample_call 120) H) as (row & Hrow & Hs & _).
  exists row. split; [exact Hrow | exact Hs].
Defined.

(** *** A second run *)

Section Rerun.

Variables prompt1 prompt2 : string.
Variables build1 build2 :
  SpeechMetrics.Transcript -> SpeechMetrics.Metrics ->
  EmotionAnalysis.EmotionSummary -> string -> string.
Variables service1 service2 : string -> string -> list (option string) + exn.
Variables loads1 loads2 : string -> option json.

(** The outcome depends on the columns the job reads only. *)
Lemma outcome_same_inputs (a b : CallSession) :
  same_inputs a b ->
  outcome prompt2 build2 service2 loads2 a
  = outcome prompt2 build2 service2 loads2 b.
Proof.
  destruct a, b. unfold same_inputs.
  cbn [id owner_id persona scenario duration_seconds hume_chat_id transcript
       emotion_data].
  intros (-> & -> & -> & -> & -> & -> & -> & ->). reflexivity.
Qed.

(** X19.  A second run leaves what it would have left as a first run:
    what an earlier run has stored, a report or an error, has no
    influence on it, whatever the model service answered then and
    answers now. *)
Theorem rerun_forgets_earlier_run (db : gmap uuid CallSession)
        (call : CallSession) :
  db !! id call = Some call ->
  run_job prompt2 build2 service2 loads2 (id call)
          (run_job prompt1 build1 service1 loads1 (id call) db).2
  = run_job prompt2 build2 service2 loads2 (id call) db.
Proof.
  intros H.
  rewrite (run_job_outcome prompt1 build1 service1 loads1 db call H).
  cbn [snd].
  set (row := outcome prompt1 build1 service1 loads1 call).
  pose proof (outcome_inputs prompt1 build1 service1 loads1 call) as Hin.
  fold row in Hin.
  assert (Hid : id row = id call) by apply Hin.
  assert (Hrow : <[id call := row]> db !! id row = Some row)
    by (rewrite Hid; apply lookup_insert_eq).
  rewrite <- Hid at 1.
  rewrite (run_job_outcome prompt2 build2 service2 loads2 _ row Hrow).
  rewrite (run_job_outcome prompt2 build2 service2 loads2 db call H).
  rewrite Hid, insert_insert_eq, (outcome_same_inputs row call Hin).
  reflexivity.
Qed.

End Rerun.

Lemma rerun_forgets_earlier_run_witness :
  run_job "system" sample_prompt (answers "report") sample_loads 7%N
          (run_job "system" sample_prompt refuses sample_loads 7%N
                   (sample_db 120)).2
  = run_job "system" sample_prompt (answers "report") sample_loads 7%N
            (sample_db 120).
Proof.
  apply (rerun_forgets_earlier_run "system" "system" sample_prompt
           sample_prompt refuses (answers "report") sample_loads sample_loads
           (sample_db 120) (sample_call 120)).
  apply lookup_singleton_eq.
Defined.

(** *** The trigger after a run *)

Section Retry.

Import Calls.

Variable COACHING_SYSTEM_PROMPT : string.
Variable _build_analysis_prompt :
  SpeechMetrics.Transcript -> SpeechMetrics.Metrics ->
  EmotionAnalysis.EmotionSummary -> string -> string.
Variable create_completion : string -> string -> list (option string) + exn.
Variable json_loads : string -> option json.

Local Abbreviation job :=
  (run_job COACHING_SYSTEM_PROMPT _build_analysis_prompt create_completion
           json_loads).

(** X20.  After a run on a stored session, the owner can trigger the
    analysis again exactly when the run has ended in "error": then the
    trigger accepts and schedules the job once more; after a run that
    ended in "done" it refuses with status 400 and schedules nothing. *)
Theorem retry_only_after_error (db : gmap uuid CallSession)
        (call : CallSession) (current_user : User) (tasks : list Task) :
  db !! id call = Some call ->
  owner_id call = user_id current_user ->
  let db' := (job (id call) db).2 in
  exists row,
    db' !! id call = Some row /\
    ((status row = "error" /\
      analyze_call_session db' current_user (id call) tasks
      = (inl "Analysis started",
         (tasks ++ [GenerateCoachingReport (id call)])%list))
     \/
     (status row = "done" /\
      analyze_call_session db' current_user (id call) tasks
      = (inr (HTTPError 400
                "Call must be completed before analysis. Current status: done"),
         tasks))).
Proof.
  intros H Ho db'. subst db'. rewrite (run_job_outcome _ _ _ _ db call H).
  cbn [snd].
  set (row := outcome _ _ _ _ call).
  pose proof (outcome_inputs COACHING_SYSTEM_PROMPT _build_analysis_prompt
                create_completion json_loads call) as Hin.
  fold row in Hin. destruct Hin as (Hid & Hown & _).
  exists row. split; [apply lookup_insert_eq|].
  unfold analyze_call_session. rewrite lookup_insert_eq.
  rewrite Hown, Ho, bool_decide_eq_true_2 by reflexivity. cbn [negb].
  rewrite Hid.
  destruct (outcome_cases COACHING_SYSTEM_PROMPT _build_analysis_prompt
              create_completion json_loads call)
    as [E|[E|(tr & dur & report & _ & _ & E)]];
    fold row in E; rewrite E.
  - left. split; reflexivity.
  - left. split; reflexivity.
  - right. split; reflexivity.
Qed.

End Retry.

Lemma retry_only_after_error_witness :
  exists row,
    (run_job "system" sample_prompt refuses sample_loads 7%N (sample_db 120)).2
      !! 7%N = Some row /\
    status row = "error" /\
    Calls.analyze_call_session
      (run_job "system" sample_prompt refuses sample_loads 7%N
               (sample_db 120)).2
      CallsSpec.owner 7%N []
    = (inl "Analysis started", [Calls.GenerateCoachingReport 7%N]).
Proof.
  assert (H : sample_db 120 !! id (sample_call 120) = Some (sample_call 120))
    by apply lookup_singleton_eq.
  destruct (retry_only_after_error "system" sample_prompt refuses sample_loads
              (sample_db 120) (sample_call 120) CallsSpec.owner [] H eq_refl)
    as (row & Hrow & [[Hs Ha]|[Hs Ha]]).
  - exists row. split; [exact Hrow|]. split; [exact Hs | exact Ha].
  - exfalso.
    assert (E : run_job "system" sample_prompt refuses sample_loads
                        (id (sample_call 120)) (sample_db 120)
                = (inl tt, <[7%N := failed_row (sample_call 120)]>
                             (sample_db 120))).
    { etransitivity;
        [exact (run_job_outcome "system" sample_prompt refuses sample_loads
                  (sample_db 120) (sample_call 120) H)|]. reflexivity. }
    rewrite E in Hrow. cbn [snd] in Hrow.
    change (id (sample_call 120)) with 7%N in Hrow.
    rewrite lookup_insert_eq in Hrow. injection Hrow as <-. discriminate.
Defined.

End ReportMore.

(* ===================================================================== *)
(** ** The routes of a session: properties *)
(* ===================================================================== *)

Module RoutesProofs.

Import Store Calls CallsRoutes CoachingReport ReportSpec ReportTerms CallsSpec.
Import ReportProofs ReportMore.

Lemma no_access_owner (u : User) (call : CallSession) :
  owner_id call = user_id u -> no_access u call = false.
Proof.
  intros H. unfold no_access. rewrite bool_decide_eq_true_2 by exact H.
  apply andb_false_r.
Qed.

Lemma no_access_superuser (u : User) (call : CallSession) :
  is_superuser u = true -> no_access u call = false.
Proof. intros H. unfold no_access. rewrite H. reflexivity. Qed.

Lemma no_access_stranger (u : User) (call : CallSession) :
  is_superuser u = false -> owner_id call <> user_id u ->
  no_access u call = true.
Proof.
  intros Hs Ho. unfold no_access.
  rewrite Hs, bool_decide_eq_false_2 by exact Ho. reflexivity.
Qed.

Section Routes.

Variable Response : Type.
Variable CoachingReportPublic :
  gmap string analysis_value -> option SpeechMetrics.Transcript ->
  option Response.

Local Abbreviation report := (get_call_report Response CoachingReportPublic).

(** X21.  For an id the table does not hold, each of the five routes of
    a session answers 404 "Call session not found", whoever asks; for a
    user who neither owns the session nor is a superuser, each of them
    answers 400 "Not enough permissions".  In both cases the table stays
    as it is and no job is scheduled. *)
Theorem unknown_ids_and_strangers (db : gmap uuid CallSession)
        (u : User) (k : uuid) (tasks : list Task)
        (data : CallSessionComplete) :
  (db !! k = None ->
   get_call_session db u k = inr (HTTPError 404 "Call session not found") /\
   complete_call_session db u k data
   = (inr (HTTPError 404 "Call session not found"), db) /\
   analyze_call_session db u k tasks
   = (inr (HTTPError 404 "Call session not found"), tasks) /\
   report db u k = inr (Http 404 (text "Call session not found")) /\
   delete_call_session db u k
   = (inr (HTTPError 404 "Call session not found"), db)) /\
  (forall call,
     db !! k = Some call ->
     is_superuser u = false -> owner_id call <> user_id u ->
     get_call_session db u k = inr (HTTPError 400 "Not enough permissions") /\
     complete_call_session db u k data
     = (inr (HTTPError 400 "Not enough permissions"), db) /\
     analyze_call_session db u k tasks
     = (inr (HTTPError 400 "Not enough permissions"), tasks) /\
     report db u k = inr (Http 400 (text "Not enough permissions")) /\
     delete_call_session db u k
     = (inr (HTTPError 400 "Not enough permissions"), db)).
Proof.
  split.
  - intros H.
    unfold get_call_session, complete_call_session, analyze_call_session,
      get_call_report, delete_call_session.
    rewrite H. repeat split.
  - intros call H Hs Ho.
    unfold get_call_session, complete_call_session, analyze_call_session,
      get_call_report, delete_call_session.
    rewrite H, (no_access_stranger u call Hs Ho).
    rewrite (bool_decide_eq_false_2 _ Ho). repeat split.
Qed.

(** X22.  A superuser who does not own a session can read it, gets the
    answer of the report route that the owner gets, and can delete it;
    completing it and triggering its analysis are refused with 400 "Not
    enough permissions", and leave the table and the scheduled jobs as
    they are. *)
Theorem superuser_reads_and_deletes (db : gmap uuid CallSession)
        (u : User) (k : uuid) (call : CallSession) (tasks : list Task)
        (data : CallSessionComplete) :
  db !! k = Some call ->
  is_superuser u = true -> owner_id call <> user_id u ->
  get_call_session db u k = inl call /\
  (forall o, owner_id call = user_id o -> report db u k = report db o k) /\
  delete_call_session db u k
  = (inl "Call session deleted successfully", delete (id call) db) /\
  complete_call_session db u k data
  = (inr (HTTPError 400 "Not enough permissions"), db) /\
  analyze_call_session db u k tasks
  = (inr (HTTPError 400 "Not enough permissions"), tasks).
Proof.
  intros H Hs Ho.
  unfold get_call_session, complete_call_session, analyze_call_session,
    get_call_report, delete_call_session.
  rewrite H, (no_access_superuser u call Hs).
  rewrite (bool_decide_eq_false_2 _ Ho).
  split; [reflexivity|]. split; [|repeat split].
  intros o Hown. rewrite (no_access_owner o call Hown). reflexivity.
Qed.

(** X23.  A deletion by the owner or by a superuser removes the row of
    the session and no other: afterwards each of the five routes answers
    404 for its id, and every other row is as it was. *)
Theorem delete_removes_one_row (db : gmap uuid CallSession)
        (u : User) (call : CallSession) (tasks : list Task)
        (data : CallSessionComplete) :
  db !! id call = Some call ->
  is_superuser u = true \/ owner_id call = user_id u ->
  let out := delete_call_session db u (id call) in
  out.1 = inl "Call session deleted successfully" /\
  out.2 !! id call = None /\
  (forall j, j <> id call -> out.2 !! j = db !! j) /\
  (forall v : User,
     get_call_session out.2 v (id call)
     = inr (HTTPError 404 "Call session not found") /\
     complete_call_session out.2 v (id call) data
     = (inr (HTTPError 404 "Call session not found"), out.2) /\
     analyze_call_session out.2 v (id call) tasks
     = (inr (HTTPError 404 "Call session not found"), tasks) /\
     report out.2 v (id call) = inr (Http 404 (text "Call session not found")) /\
     delete_call_session out.2 v (id call)
     = (inr (HTTPError 404 "Call session not found"), out.2)).
Proof.
  intros H Hu out.
  assert (Hacc : no_access u call = false).
  { destruct Hu as [Hs|Ho];
      [apply no_access_superuser | apply no_access_owner]; assumption. }
  assert (Hout : out = (inl "Call session deleted successfully",
                        delete (id call) db)).
  { unfold out, delete_call_session. rewrite H, Hacc. reflexivity. }
  rewrite Hout. cbn [fst snd].
  assert (Hgone : delete (id call) db !! id call = None)
    by apply lookup_delete_eq.
  split; [reflexivity|]. split; [exact Hgone|]. split.
  - intros j Hj. apply lookup_delete_ne. congruence.
  - intros v.
    unfold get_call_session, complete_call_session, analyze_call_session,
      get_call_report, delete_call_session.
    rewrite Hgone. repeat split.
Qed.

(** *** The report route after a run of the job *)

Section Job.

Variable COACHING_SYSTEM_PROMPT : string.
Variable _build_analysis_prompt :
  SpeechMetrics.Transcript -> SpeechMetrics.Metrics ->
  EmotionAnalysis.EmotionSummary -> string -> string.
Variable create_completion : string -> string -> list (option string) + exn.
Variable json_loads : string -> option json.

Local Abbreviation job :=
  (run_job COACHING_SYSTEM_PROMPT _build_analysis_prompt create_completion
           json_loads).
Local Abbreviation result :=
  (outcome COACHING_SYSTEM_PROMPT _build_analysis_prompt create_completion
           json_loads).

Lemma merged_not_empty call tr dur rep : merged call tr dur rep <> ∅.
Proof. unfold merged. apply insert_non_empty. Qed.

Lemma status_not_pending (s : string) :
  s = "done" \/ s = "error" ->
  bool_decide (s ∈ ["active"; "completed"; "analyzing"]) = false.
Proof.
  intros H. apply bool_decide_eq_false_2.
  rewrite !elem_of_cons, elem_of_nil.
  destruct H as [-> | ->]; intros [H|[H|[H|[]]]]; discriminate.
Qed.

(** X24.  After a run of the job on a stored session, the report route
    never tells its owner, or a superuser, that the analysis is in
    progress or that there is no report.  When the run has ended in
    "error" it answers 422 with the message the job has stored, one of
    the two error texts of the job; when the run has ended in "done" it
    hands the stored results and the transcript to the response class,
    unless the report of the model has a key "transcript" of its own,
    which clashes with the keyword of that name. *)
Theorem report_after_job (db : gmap uuid CallSession) (call : CallSession)
        (u : User) :
  db !! id call = Some call ->
  is_superuser u = true \/ owner_id call = user_id u ->
  let db' := (job (id call) db).2 in
  exists row,
    db' !! id call = Some row /\
    (status row = "done" \/ status row = "error") /\
    (status row = "error" ->
     exists msg,
       (msg = "Analysis failed. Please try again."
        \/ msg = "Missing transcript or duration data") /\
       analysis_results row = Some {[ "error" := text msg ]} /\
       report db' u (id call) = inr (Http 422 (text msg))) /\
    (status row = "done" ->
     exists results,
       analysis_results row = Some results /\
       report db' u (id call)
       = if bool_decide (is_Some (results !! "transcript"))
         then inr (DuplicateKeyword "transcript")
         else match CoachingReportPublic results (transcript call) with
              | Some response => inl response
              | None => inr Invalid
              end).
Proof.
  intros H Hu db'. subst db'.
  rewrite (run_job_outcome _ _ _ _ db call H). cbn [snd].
  set (row := result call).
  pose proof (outcome_inputs COACHING_SYSTEM_PROMPT _build_analysis_prompt
                create_completion json_loads call) as Hin.
  fold row in Hin.
  destruct Hin as (Hid & Hown & _ & _ & _ & _ & Htr & _).
  assert (Hacc : no_access u row = false).
  { destruct Hu as [Hs|Ho];
      [apply no_access_superuser; exact Hs
      |apply no_access_owner; congruence]. }
  exists row. split; [apply lookup_insert_eq|].
  unfold get_call_report. rewrite lookup_insert_eq, Hacc, Htr.
  destruct (outcome_cases COACHING_SYSTEM_PROMPT _build_analysis_prompt
              create_completion json_loads call)
    as [E|[E|(tr & dur & rep & _ & _ & E)]];
    fold row in E; rewrite E; clear E.
  - split; [right; reflexivity|]. split; [|discriminate]. intros _.
    exists "Missing transcript or duration data".
    split; [right; reflexivity|]. split; reflexivity.
  - split; [right; reflexivity|]. split; [|discriminate]. intros _.
    exists "Analysis failed. Please try again.".
    split; [left; reflexivity|]. split; reflexivity.
  - split; [left; reflexivity|]. split; [discriminate|]. intros _.
    exists (merged call tr dur rep). split; [reflexivity|].
    cbn [status done_row set_status set_analysis_results analysis_results].
    rewrite (status_not_pending "done") by (left; reflexivity).
    rewrite (bool_decide_eq_false_2 ("done" = "error")) by discriminate.
    rewrite (bool_decide_eq_false_2 _ (merged_not_empty call tr dur rep)).
    reflexivity.
Qed.

(** *** Completing a session *)

(** X25.  Completing a session, which only its owner can do, stores the
    four values of the request and sets the status to "completed",
    whatever the status was; the id, the owner, the persona, the
    scenario and the analysis results stay.  Afterwards the owner's
    trigger is accepted and schedules the job, and the report route
    answers 202 "Analysis in progress", also when results of an earlier
    analysis are stored. *)
Theorem complete_reopens_session (db : gmap uuid CallSession)
        (call : CallSession) (u : User) (data : CallSessionComplete)
        (tasks : list Task) :
  db !! id call = Some call ->
  owner_id call = user_id u ->
  let out := complete_call_session db u (id call) data in
  exists row,
    out = (inl row, <[id call := row]> db) /\
    status row = "completed" /\
    duration_seconds row = data_duration_seconds data /\
    transcript row = data_transcript data /\
    emotion_data row = data_emotion_data data /\
    hume_chat_id row = data_hume_chat_id data /\
    id row = id call /\ owner_id row = owner_id call /\
    persona row = persona call /\ scenario row = scenario call /\
    analysis_results row = analysis_results call /\
    analyze_call_session out.2 u (id call) tasks
    = (inl "Analysis started",
       (tasks ++ [GenerateCoachingReport (id call)])%list) /\
    report out.2 u (id call) = inr (Http 202 (text "Analysis in progress")).
Proof.
  intros H Ho out. subst out. unfold complete_call_session.
  rewrite H, (bool_decide_eq_true_2 _ Ho). cbn [negb id].
  eexists. split; [reflexivity|]. cbn [snd].
  repeat (split; [reflexivity|]).
  unfold analyze_call_session, get_call_report.
  rewrite !lookup_insert_eq. unfold no_access.
  cbn [owner_id status id].
  rewrite (bool_decide_eq_true_2 _ Ho), andb_false_r. cbn [negb].
  split; reflexivity.
Qed.


End Job.

End Routes.

Lemma unknown_ids_and_strangers_witness :
  get_call_session (sample_db 120) stranger 7%N
  = inr (HTTPError 400 "Not enough permissions") /\
  delete_call_session (sample_db 120) stranger 7%N
  = (inr (HTTPError 400 "Not enough permissions"), sample_db 120) /\
  get_call_session (sample_db 120) owner 8%N
  = inr (HTTPError 404 "Call session not found").
Proof.
  destruct (unknown_ids_and_strangers _ any_report (sample_db 120) stranger
              7%N [] sample_data) as [_ Hs].
  destruct (Hs (sample_call 120)) as (Hg & _ & _ & _ & Hd);
    [apply lookup_singleton_eq | reflexivity | discriminate |].
  destruct (unknown_ids_and_strangers _ any_report (sample_db 120) owner
              8%N [] sample_data) as [Hn _].
  destruct Hn as (Hg' & _); [apply lookup_singleton_ne; discriminate|].
  split; [exact Hg|]. split; [exact Hd | exact Hg'].
Defined.

Lemma superuser_reads_and_deletes_witness :
  get_call_session (sample_db 120) admin 7%N = inl (sample_call 120) /\
  analyze_call_session (sample_db 120) admin 7%N []
  = (inr (HTTPError 400 "Not enough permissions"), []).
Proof.
  destruct (superuser_reads_and_deletes _ any_report (sample_db 120) admin
              7%N (sample_call 120) [] sample_data)
    as (Hg & _ & _ & _ & Ha);
    [apply lookup_singleton_eq | reflexivity | discriminate |].
  split; [exact Hg | exact Ha].
Defined.

Lemma delete_removes_one_row_witness :
  (delete_call_session two_sessions owner 7%N).2 !! 7%N = None /\
  (delete_call_session two_sessions owner 7%N).2 !! 9%N = Some fresh_call.
Proof.
  assert (H : two_sessions !! id (sample_call 120) = Some (sample_call 120)).
  { unfold two_sessions. rewrite lookup_insert_ne by discriminate.
    apply lookup_singleton_eq. }
  destruct (delete_removes_one_row _ any_report two_sessions owner
              (sample_call 120) [] sample_data H (or_intror eq_refl))
    as (_ & Hgone & Hother & _).
  change (id (sample_call 120)) with 7%N in Hgone, Hother.
  split; [exact Hgone|]. rewrite Hother by discriminate.
  apply lookup_insert_eq.
Defined.

Lemma report_after_job_witness :
  exists row,
    (run_job "system" sample_prompt refuses sample_loads 7%N (sample_db 120)).2
      !! 7%N = Some row /\
    status row = "error" /\
    (get_call_report _ any_report
       (run_job "system" sample_prompt refuses sample_loads 7%N
                (sample_db 120)).2 owner 7%N
     = inr (Http 422 (text "Analysis failed. Please try again."))
     \/
     get_call_report _ any_report
       (run_job "system" sample_prompt refuses sample_loads 7%N
                (sample_db 120)).2 owner 7%N
     = inr (Http 422 (text "Missing transcript or duration data"))).
Proof.
  assert (H : sample_db 120 !! id (sample_call 120) = Some (sample_call 120))
    by apply lookup_singleton_eq.
  destruct (report_after_job _ any_report "system" sample_prompt refuses
              sample_loads (sample_db 120) (sample_call 120) owner H
              (or_intror eq_refl)) as (row & Hrow & _ & Herr & _).
  assert (Hs : status row = "error").
  { assert (E : run_job "system" sample_prompt refuses sample_loads
                        (id (sample_call 120)) (sample_db 120)
                = (inl tt, <[7%N := failed_row (sample_call 120)]>
                             (sample_db 120))).
    { etransitivity;
        [exact (run_job_outcome "system" sample_prompt refuses sample_loads
                  (sample_db 120) (sample_call 120) H)|]. reflexivity. }
    rewrite E in Hrow. cbn [snd] in Hrow.
    change (id (sample_call 120)) with 7%N in Hrow.
    rewrite lookup_insert_eq in Hrow. injection Hrow as <-. reflexivity. }
  exists row. split; [exact Hrow|]. split; [exact Hs|].
  destruct (Herr Hs) as (msg & [-> | ->] & _ & Hr);
    [left | right]; exact Hr.
Defined.

Lemma complete_reopens_session_witness :
  exists row,
    complete_call_session (with_status "done") owner 7%N sample_data
    = (inl row, <[7%N := row]> (with_status "done")) /\
    status row = "completed".
Proof.
  destruct (complete_reopens_session _ any_report (with_status "done")
              (set_status "done" (sample_call 120)) owner sample_data [])
    as (row & Hout & Hs & _);
    [apply lookup_singleton_eq | reflexivity |].
  exists row. split; [exact Hout | exact Hs].
Defined.


End RoutesProofs.

(* ===================================================================== *)
(** ** The personas: properties *)
(* ===================================================================== *)

Module PersonasProofs.

Import SalesPersonas.

(** A key has an item exactly when it is among the keys. *)
Lemma find_key {V} (l : list (string * V)) (k : string) :
  is_Some (List.find (fun kp : string * V => bool_decide (kp.1 = k)) l)
  <-> In k (map fst l).
Proof.
  induction l as [|[k' v] l IH]; cbn [List.find map fst].
  - split; [intros [x H]; discriminate | intros []].
  - destruct (bool_decide (k' = k)) eqn:E.
    + apply bool_decide_eq_true in E. split; [left; exact E | eexists; reflexivity].
    + apply bool_decide_eq_false in E. rewrite IH. split; [right; assumption|].
      intros [H|H]; [contradiction | exact H].
Qed.

Lemma prompt_is_Some (pid : string) :
  is_Some (get_persona_system_prompt pid)
  <-> is_Some (List.find (fun kp : string * Persona => bool_decide (kp.1 = pid))
                         PERSONAS).
Proof.
  unfold get_persona_system_prompt.
  destruct (List.find _ PERSONAS); split; intros [x H];
    try discriminate; eexists; reflexivity.
Qed.

(** X27.  The prompt lookup and the list of personas agree: a persona
    id has a system prompt exactly when the list, which is what the
    route of the personas returns, shows it; the list shows every id
    once, and no prompt is empty. *)
Theorem listed_personas_have_prompts :
  (forall pid, is_Some (get_persona_system_prompt pid)
               <-> In pid (map info_id CallsRoutes.list_personas)) /\
  NoDup (map info_id get_personas_list) /\
  (forall pid prompt,
     get_persona_system_prompt pid = Some prompt -> prompt <> "").
Proof.
  split; [|split].
  - intros pid. rewrite prompt_is_Some, find_key.
    unfold CallsRoutes.list_personas, get_personas_list. rewrite map_map.
    reflexivity.
  - apply (bool_decide_eq_true_1 _). vm_compute. reflexivity.
  - intros pid prompt. unfold get_persona_system_prompt.
    destruct (List.find _ PERSONAS) as [kp|] eqn:E; [|discriminate].
    intros [= <-]. apply find_some in E as [Hin _].
    destruct Hin as [<-|[<-|[<-|[]]]]; intros H;
      apply (f_equal String.length) in H; vm_compute in H; discriminate.
Qed.

Lemma listed_personas_have_prompts_witness :
  is_Some (get_persona_system_prompt "skeptical_buyer").
Proof.
  apply (proj1 listed_personas_have_prompts "skeptical_buyer").
  right. left. reflexivity.
Defined.

End PersonasProofs.
